(** * Oscilloscope interface: the [Oscilloscope] class of
    [src/oscilloscope-interface.py], shallowly embedded.

    Numbers are IEEE binary64 ([PrimFloat.float]), which is what Python
    floats and numpy [float64] arrays are.  Integers are [Z]; numpy's
    [int64] arithmetic is written out with its wrap-around.  The instance
    attribute [self.inst] and the traffic on the VISA transport are the
    state of a small state-and-exception monad. *)

From Stdlib Require Import ZArith List String Ascii Bool Lia.
From Stdlib Require Import PrimFloat SpecFloat FloatOps.
Import ListNotations.

Open Scope string_scope.
Open Scope Z_scope.
#[global] Set Warnings "-inexact-float".

(** ** Python exceptions that the class can raise *)

Inductive exn :=
| VisaIOError          (* any error raised by the pyvisa transport *)
| ValueError           (* float()/int() parse errors, tuple unpacking *)
| OverflowError        (* int(inf), Python int too large for numpy int64 *)
| ZeroDivisionError    (* Python float division by zero *)
| AttributeError       (* method call on [self.inst = None] *)
| NotConnected.        (* Exception("Oscilloscope not connected.") *)

Inductive result (A : Type) :=
| Ok : A -> result A
| Err : exn -> result A.
Arguments Ok {A} _.
Arguments Err {A} _.

(** ** Numeric helpers: Python and numpy semantics *)

(** Conversion of an integer to the nearest binary64 (numpy's int64 to
    float64 cast, Python's [float(int)]). *)
Definition float_of_Z (z : Z) : float :=
  SF2Prim (binary_normalize prec emax z 0 false).

(** numpy int64 arithmetic wraps modulo 2^64. *)
Definition int64_min : Z := - 2 ^ 63.
Definition int64_max : Z := 2 ^ 63 - 1.
Definition wrap64 (z : Z) : Z := (z + 2 ^ 63) mod 2 ^ 64 - 2 ^ 63.
Definition fits_int64 (z : Z) : bool := (int64_min <=? z) && (z <=? int64_max).

(** Python's [int(x)] on a float: truncation toward zero; [int(inf)]
    raises OverflowError and [int(nan)] raises ValueError. *)
Definition py_int_of_float (x : float) : result Z :=
  match Prim2SF x with
  | S754_zero _ => Ok 0
  | S754_infinity _ => Err OverflowError
  | S754_nan => Err ValueError
  | S754_finite s m e =>
      let v := if 0 <=? e then Z.pos m * 2 ^ e else Z.pos m / 2 ^ (- e) in
      Ok (if s then - v else v)
  end.

(** Python's [x / y] on floats: [ZeroDivisionError] when [y == 0.0]
    (which also holds for [-0.0]). *)
Definition py_float_div (x y : float) : result float :=
  if PrimFloat.eqb y 0%float then Err ZeroDivisionError else Ok (x / y)%float.

(** ** The waveform conversion, lines 140-149 of [get_waveform]

<<
        adjusted_vertical_scale = vertical_scale / probe_attenuation
        voltage = ((data - 130.0) / 25.0) * adjusted_vertical_scale
        time = (np.arange(len(data)) - x_reference) * x_increment + x_origin
        return time, voltage
>>
    [data] is the numpy array of unsigned bytes, [x_reference] the Python
    int of the preamble.  [np.arange(len(data)) - x_reference] is int64
    arithmetic: the Python int must fit int64 (else OverflowError) and the
    subtraction wraps. *)

Definition voltage_of_sample (adjusted_vertical_scale : float) (d : Z) : float :=
  (((float_of_Z d - 130.0) / 25.0) * adjusted_vertical_scale)%float.

Definition time_of_index (x_reference : Z) (x_increment x_origin : float)
    (i : nat) : float :=
  (float_of_Z (wrap64 (Z.of_nat i - x_reference)) * x_increment + x_origin)%float.

Definition convert (data : list Z) (x_increment x_origin : float) (x_reference : Z)
    (vertical_scale probe_attenuation : float) : result (list float * list float) :=
  match py_float_div vertical_scale probe_attenuation with
  | Err e => Err e
  | Ok adjusted_vertical_scale =>
      let voltage := map (voltage_of_sample adjusted_vertical_scale) data in
      if fits_int64 x_reference then
        let time := map (time_of_index x_reference x_increment x_origin)
                        (seq 0 (List.length data)) in
        Ok (time, voltage)
      else Err OverflowError
  end.

(** ** Python string operations used by the class *)

(** Characters removed by [str.strip()] (ASCII part of [str.isspace]). *)
Definition py_isspace (c : ascii) : bool :=
  let n := nat_of_ascii c in
  ((9 <=? n) && (n <=? 13))%nat || ((28 <=? n) && (n <=? 32))%nat.

Fixpoint lstrip (s : string) : string :=
  match s with
  | EmptyString => EmptyString
  | String c r => if py_isspace c then lstrip r else s
  end.

Fixpoint rev_string (s : string) : string :=
  match s with
  | EmptyString => EmptyString
  | String c r => rev_string r ++ String c EmptyString
  end.

Definition strip (s : string) : string := rev_string (lstrip (rev_string (lstrip s))).

(** [s.split(',')]: always at least one piece. *)
Fixpoint split_comma_acc (acc : string) (s : string) : list string :=
  match s with
  | EmptyString => [acc]
  | String c r =>
      if Ascii.eqb c ","%char then acc :: split_comma_acc EmptyString r
      else split_comma_acc (acc ++ String c EmptyString) r
  end.
Definition split_comma (s : string) : list string := split_comma_acc EmptyString s.

(** [str(n)] / [f"{n}"] for a Python int. *)
Fixpoint digits_acc (fuel : nat) (n : Z) (acc : string) : string :=
  match fuel with
  | O => acc
  | S f =>
      let acc' := String (ascii_of_nat (48 + Z.to_nat (n mod 10))) acc in
      if n / 10 =? 0 then acc' else digits_acc f (n / 10) acc'
  end.
Definition py_str_Z (n : Z) : string :=
  if n <? 0 then "-" ++ digits_acc (S (Z.to_nat (Z.log2 (- n)))) (- n) EmptyString
  else digits_acc (S (Z.to_nat (Z.log2 n))) n EmptyString.

(** ** The VISA transport and the session state *)

(** One call on the transport: [rm.open_resource], [inst.write],
    [inst.query], [inst.query_binary_values], [inst.close]. *)
Inductive io :=
| IOpen (resource_name : string)
| IWrite (command : string)
| IQuery (command : string)
| IQueryBinary (command : string)
| IClose.

Inductive reply :=
| RNone
| RStr (s : string)
| RBytes (b : list Byte.byte).

(** The object returned by [rm.open_resource]. *)
Record Resource := { resource_of : string }.

(** The attributes of an [Oscilloscope] object ([self.rm] is stateless
    here and left out) and the calls made on the transport so far. *)
Record Oscilloscope := { resource_name : string; inst : option Resource }.
Record session := { osc : Oscilloscope; sent : list io }.

Definition with_inst (s : session) (i : option Resource) : session :=
  {| osc := {| resource_name := resource_name (osc s); inst := i |}; sent := sent s |}.

(** The values of a block read with [datatype='B'] (unsigned bytes). *)
Definition byte_values (b : list Byte.byte) : list Z :=
  map (fun x => Z.of_nat (Byte.to_nat x)) b.

(** A call goes on the transport. *)
Definition log_call (s : session) (e : io) : session :=
  {| osc := osc s; sent := sent s ++ [e] |}.

(** State and exception monad. *)
Definition M (A : Type) : Type := session -> result A * session.
Definition ret {A} (a : A) : M A := fun s => (Ok a, s).
Definition raise {A} (e : exn) : M A := fun s => (Err e, s).
Definition bind {A B} (m : M A) (k : A -> M B) : M B :=
  fun s => match m s with
           | (Ok a, s') => k a s'
           | (Err e, s') => (Err e, s')
           end.
Definition lift {A} (r : result A) : M A :=
  match r with Ok a => ret a | Err e => raise e end.
Definition get_inst : M (option Resource) := fun s => (Ok (inst (osc s)), s).
Definition get_resource_name : M string := fun s => (Ok (resource_name (osc s)), s).
Definition set_inst (i : option Resource) : M unit := fun s => (Ok tt, with_inst s i).

Notation "x <- m ;; k" := (bind m (fun x => k))
  (at level 61, m at next level, right associativity).
Notation "m ;;; k" := (bind m (fun _ => k)) (at level 61, right associativity).

(** Binding in the pure [result] type (for parsing). *)
Definition rbind {A B} (r : result A) (k : A -> result B) : result B :=
  match r with Ok a => k a | Err e => Err e end.
Notation "x <-? r ;; k" := (rbind r (fun x => k))
  (at level 61, r at next level, right associativity).

(** The preamble fields as [get_waveform] leaves them after line 125:
    the first four stay strings, they are never converted. *)
Record Preamble := {
  format_code : string; type_code : string; points : string; count : string;
  x_increment : float; x_origin : float; x_reference : Z;
  y_increment : float; y_origin : float; y_reference : Z }.

Section Oscilloscope_methods.

(** The instrument behind the VISA transport: its answer to a call, given
    every call sent before it; [None] when pyvisa raises. *)
Variable transport : list io -> io -> option reply.
(** Python's [float(s)] on a string; [None] when it raises ValueError. *)
Variable py_float_of_string : string -> option float.
(** Python's [f"{x}"] for a float. *)
Variable py_float_repr : float -> string.

Definition send (e : io) : M reply :=
  fun s =>
    let s' := log_call s e in
    match transport (sent s) e with
    | Some r => (Ok r, s')
    | None => (Err VisaIOError, s')
    end.

(** [self.inst.write(cmd)], [self.inst.query(cmd)],
    [self.inst.query_binary_values(cmd, datatype='B')]: an
    AttributeError when [self.inst] is [None]. *)
Definition inst_write (cmd : string) : M unit :=
  i <- get_inst;;
  match i with
  | None => raise AttributeError
  | Some _ => send (IWrite cmd);;; ret tt
  end.

Definition inst_query (cmd : string) : M string :=
  i <- get_inst;;
  match i with
  | None => raise AttributeError
  | Some _ =>
      r <- send (IQuery cmd);;
      match r with RStr a => ret a | _ => raise VisaIOError end
  end.

Definition inst_query_binary (cmd : string) : M (list Z) :=
  i <- get_inst;;
  match i with
  | None => raise AttributeError
  | Some _ =>
      r <- send (IQueryBinary cmd);;
      match r with
      | RBytes b => ret (byte_values b)
      | _ => raise VisaIOError
      end
  end.

Definition py_float (a : string) : result float :=
  match py_float_of_string a with Some f => Ok f | None => Err ValueError end.

(** [int(float(a))] *)
Definition py_int_float (a : string) : result Z :=
  f <-? py_float a;; py_int_of_float f.

(** Lines 114-125 of [get_waveform]: unpack [preamble_fields[:10]] and
    convert six of the fields. *)
Definition unpack_preamble (preamble_fields : list string) : result Preamble :=
  match firstn 10 preamble_fields with
  | [format_code; type_code; points; count; x_increment; x_origin; x_reference;
     y_increment; y_origin; y_reference] =>
      xi <-? py_float x_increment;;
      xo <-? py_float x_origin;;
      xr <-? py_int_float x_reference;;
      yi <-? py_float y_increment;;
      yo <-? py_float y_origin;;
      yr <-? py_int_float y_reference;;
      Ok {| format_code := format_code; type_code := type_code;
            points := points; count := count;
            x_increment := xi; x_origin := xo; x_reference := xr;
            y_increment := yi; y_origin := yo; y_reference := yr |}
  | _ => Err ValueError   (* not enough values to unpack *)
  end.

(** Lines 110-125 of [get_waveform]. *)
Definition parse_preamble (preamble : string) : result Preamble :=
  unpack_preamble (split_comma (strip preamble)).

(** [Oscilloscope.connect] *)
Definition connect : M unit :=
  name <- get_resource_name;;
  send (IOpen name);;;
  set_inst (Some {| resource_of := name |});;;
  idn <- inst_query "*IDN?";;
  ret tt.

(** [Oscilloscope.disconnect] *)
Definition disconnect : M unit :=
  i <- get_inst;;
  match i with
  | None => ret tt
  | Some _ => send IClose;;; set_inst None
  end.

(** [Oscilloscope.set_channel] *)
Definition set_channel (channel : Z) : M unit :=
  inst_write (":WAV:SOUR CHAN" ++ py_str_Z channel).

(** [Oscilloscope.set_timebase] *)
Definition set_timebase (time_per_div : float) : M unit :=
  inst_write (":TIM:SCAL " ++ py_float_repr time_per_div).

(** [Oscilloscope.set_voltage_scale] *)
Definition set_voltage_scale (channel : Z) (volts_per_div : float) : M unit :=
  inst_write (":CHAN" ++ py_str_Z channel ++ ":SCAL " ++ py_float_repr volts_per_div).

(** [Oscilloscope.set_trigger] *)
Definition set_trigger (mode : string) (source : Z) (slope : string) (level : float)
    : M unit :=
  inst_write (":TRIG:MODE " ++ mode);;;
  inst_write (":TRIG:EDGE:SOUR CHAN" ++ py_str_Z source);;;
  inst_write (":TRIG:EDGE:SLOP " ++ slope);;;
  inst_write (":TRIG:LEV CHAN" ++ py_str_Z source ++ "," ++ py_float_repr level).

(** [Oscilloscope.get_waveform]; returns [(time, voltage)]. *)
Definition get_waveform (channel : Z) : M (list float * list float) :=
  i <- get_inst;;
  match i with
  | None => raise NotConnected
  | Some _ =>
      inst_write (":WAV:SOUR CHAN" ++ py_str_Z channel);;;
      inst_write ":WAV:FORM BYTE";;;
      inst_write ":WAV:MODE NORMAL";;;
      actual_format <- inst_query ":WAV:FORM?";;
      preamble <- inst_query ":WAV:PRE?";;
      p <- lift (parse_preamble preamble);;
      data <- inst_query_binary ":WAV:DATA?";;
      vs <- inst_query (":CHAN" ++ py_str_Z channel ++ ":SCAL?");;
      vertical_scale <- lift (py_float vs);;
      pa <- inst_query (":CHAN" ++ py_str_Z channel ++ ":PROB?");;
      probe_attenuation <- lift (py_float pa);;
      lift (convert data (x_increment p) (x_origin p) (x_reference p)
                    vertical_scale probe_attenuation)
  end.

End Oscilloscope_methods.

(** ** The [MainWindow] controller

    The slots of [MainWindow] that drive the [Oscilloscope] object:
    [connect_oscilloscope], [disconnect_oscilloscope], [apply_settings],
    [get_waveform] and [plot_waveform].  Widgets are read through the
    values they hold ([Form]); message boxes and plots are recorded as
    they are shown; drawing on the canvas is not modelled. *)

(** Python's [int(s)] on an ASCII string: surrounding whitespace, an
    optional sign, decimal digits with single underscores between digits. *)
Fixpoint int_digits (s : string) (acc : Z) (after_digit : bool) : option Z :=
  match s with
  | EmptyString => if after_digit then Some acc else None
  | String c r =>
      let n := nat_of_ascii c in
      if ((48 <=? n) && (n <=? 57))%nat
      then int_digits r (acc * 10 + Z.of_nat (n - 48)) true
      else if Ascii.eqb c "_"%char && after_digit then int_digits r acc false
      else None
  end.

Definition py_int_of_string (s : string) : option Z :=
  match strip s with
  | String c r =>
      if Ascii.eqb c "-"%char then option_map Z.opp (int_digits r 0 false)
      else if Ascii.eqb c "+"%char then int_digits r 0 false
      else int_digits (String c r) 0 false
  | EmptyString => None
  end.

Definition py_int (s : string) : result Z :=
  match py_int_of_string s with Some n => Ok n | None => Err ValueError end.

(** [str.upper()] on ASCII. *)
Fixpoint py_upper (s : string) : string :=
  match s with
  | EmptyString => EmptyString
  | String c r =>
      let n := nat_of_ascii c in
      String (if ((97 <=? n) && (n <=? 122))%nat then ascii_of_nat (n - 32) else c)
             (py_upper r)
  end.

(** What the widgets hold when a slot runs: [resource_input.text()],
    the [currentText()] of the combo boxes and the [value()] of the spin
    boxes. *)
Record Form := {
  resource_text : string;
  channel_text : string;
  timebase_value : float;
  voltage_value : float;
  trigger_mode_text : string;
  trigger_source_text : string;
  trigger_slope_text : string;
  trigger_level_value : float }.

(** [QMessageBox.warning(self, title, text)] and
    [QMessageBox.critical(self, title, str(e))]. *)
Inductive dialog :=
| Warning (title text : string)
| Critical (title : string) (e : exn).

(** Enabled state of the Disconnect, Apply Settings, Get Waveform and
    Select Color buttons. *)
Record Buttons := {
  disconnect_on : bool; apply_on : bool; get_data_on : bool; color_on : bool }.

(** The attributes of a [MainWindow] that the slots read or write.
    [time] and [voltage] are [None] until a waveform is read. *)
Record Window := {
  oscilloscope : option Oscilloscope;
  time : option (list float);
  voltage : option (list float);
  waveform_color : string;
  status : string;
  buttons : Buttons;
  dialogs : list dialog;
  plots : list (list float * list float * string) }.

(** The window and the calls made on the (shared) VISA transport. *)
Record world := { win : Window; wsent : list io }.

Definition upd_win (f : Window -> Window) (w : world) : world :=
  {| win := f (win w); wsent := wsent w |}.

Definition with_oscilloscope (o : option Oscilloscope) (v : Window) : Window :=
  {| oscilloscope := o; time := time v; voltage := voltage v;
     waveform_color := waveform_color v; status := status v; buttons := buttons v;
     dialogs := dialogs v; plots := plots v |}.
Definition with_status (t : string) (v : Window) : Window :=
  {| oscilloscope := oscilloscope v; time := time v; voltage := voltage v;
     waveform_color := waveform_color v; status := t; buttons := buttons v;
     dialogs := dialogs v; plots := plots v |}.
Definition with_buttons (b : Buttons) (v : Window) : Window :=
  {| oscilloscope := oscilloscope v; time := time v; voltage := voltage v;
     waveform_color := waveform_color v; status := status v; buttons := b;
     dialogs := dialogs v; plots := plots v |}.
Definition with_waveform (t u : list float) (v : Window) : Window :=
  {| oscilloscope := oscilloscope v; time := Some t; voltage := Some u;
     waveform_color := waveform_color v; status := status v; buttons := buttons v;
     dialogs := dialogs v; plots := plots v |}.
Definition with_dialog (d : dialog) (v : Window) : Window :=
  {| oscilloscope := oscilloscope v; time := time v; voltage := voltage v;
     waveform_color := waveform_color v; status := status v; buttons := buttons v;
     dialogs := dialogs v ++ [d]; plots := plots v |}.
Definition with_plot (t u : list float) (v : Window) : Window :=
  {| oscilloscope := oscilloscope v; time := time v; voltage := voltage v;
     waveform_color := waveform_color v; status := status v; buttons := buttons v;
     dialogs := dialogs v; plots := plots v ++ [(t, u, waveform_color v)] |}.

(** State and exception monad of the window. *)
Definition WM (A : Type) : Type := world -> result A * world.
Definition wret {A} (a : A) : WM A := fun w => (Ok a, w).
Definition wbind {A B} (m : WM A) (k : A -> WM B) : WM B :=
  fun w => match m w with
           | (Ok a, w') => k a w'
           | (Err e, w') => (Err e, w')
           end.
Definition wlift {A} (r : result A) : WM A :=
  fun w => match r with Ok a => (Ok a, w) | Err e => (Err e, w) end.
(** [try: m except Exception as e: h(e)] *)
Definition try_except {A} (m : WM A) (h : exn -> WM A) : WM A :=
  fun w => match m w with
           | (Err e, w') => h e w'
           | r => r
           end.
Definition modify (f : Window -> Window) : WM unit := fun w => (Ok tt, upd_win f w).
Definition get_oscilloscope : WM (option Oscilloscope) :=
  fun w => (Ok (oscilloscope (win w)), w).

Notation "x <~ m ;; k" := (wbind m (fun x => k))
  (at level 61, m at next level, right associativity).
Notation "m ;;~ k" := (wbind m (fun _ => k)) (at level 61, right associativity).

Module MainWindow.

Section MainWindow_methods.

Variable transport : list io -> io -> option reply.
Variable py_float_of_string : string -> option float.
Variable py_float_repr : float -> string.

(** A method call on [self.oscilloscope]: the object is updated in place
    and the calls it makes go on the shared transport; on [None] the
    call is an AttributeError. *)
Definition run_osc {A} (m : M A) : WM A :=
  fun w =>
    match oscilloscope (win w) with
    | None => (Err AttributeError, w)
    | Some o =>
        let (r, s') := m {| osc := o; sent := wsent w |} in
        (r, {| win := with_oscilloscope (Some (osc s')) (win w); wsent := sent s' |})
    end.

Definition show (d : dialog) : WM unit := modify (with_dialog d).

(** [MainWindow.plot_waveform]: one plot of [(time, voltage)] in the
    current [waveform_color]. *)
Definition plot_waveform (t u : list float) : WM unit := modify (with_plot t u).

(** [MainWindow.apply_settings] *)
Definition apply_settings (f : Form) : WM unit :=
  o <~ get_oscilloscope;;
  match o with
  | None => show (Warning "Warning" "Oscilloscope not connected.")
  | Some _ =>
      try_except
        (channel <~ wlift (py_int (channel_text f));;
         let timebase := timebase_value f in
         let voltage_scale := voltage_value f in
         let trigger_mode := trigger_mode_text f in
         trigger_source <~ wlift (py_int (trigger_source_text f));;
         let trigger_slope :=
           if String.eqb (py_upper (trigger_slope_text f)) "POSITIVE" then "POS" else "NEG" in
         let trigger_level := trigger_level_value f in
         run_osc (set_channel transport channel);;~
         run_osc (set_timebase transport py_float_repr timebase);;~
         run_osc (set_voltage_scale transport py_float_repr channel voltage_scale);;~
         run_osc (set_trigger transport py_float_repr trigger_mode trigger_source
                    trigger_slope trigger_level))
        (fun e => show (Critical "Error" e))
  end.

(** [MainWindow.connect_oscilloscope] ([pyvisa.ResourceManager()] in the
    constructor is taken to succeed). *)
Definition connect_oscilloscope (f : Form) : WM unit :=
  let resource_name := resource_text f in
  try_except
    (modify (with_oscilloscope (Some {| resource_name := resource_name; inst := None |}));;~
     run_osc (connect transport);;~
     modify (with_status ("Status: Connected to " ++ resource_name));;~
     modify (with_buttons {| disconnect_on := true; apply_on := true;
                             get_data_on := true; color_on := true |});;~
     apply_settings f)
    (fun e => show (Critical "Connection Error" e)).

(** [MainWindow.disconnect_oscilloscope] (exceptions are not caught). *)
Definition disconnect_oscilloscope : WM unit :=
  o <~ get_oscilloscope;;
  match o with
  | None => wret tt
  | Some _ =>
      run_osc (disconnect transport);;~
      modify (with_oscilloscope None);;~
      modify (with_status "Status: Disconnected")
  end.

(** [MainWindow.get_waveform] *)
Definition get_waveform (f : Form) : WM unit :=
  o <~ get_oscilloscope;;
  match o with
  | None => show (Warning "Warning" "Oscilloscope not connected.")
  | Some _ =>
      try_except
        (channel <~ wlift (py_int (channel_text f));;
         tv <~ run_osc (get_waveform transport py_float_of_string channel);;
         modify (with_waveform (fst tv) (snd tv));;~
         plot_waveform (fst tv) (snd tv))
        (fun e => show (Critical "Error" e))
  end.

End MainWindow_methods.

(** The window right after [MainWindow.__init__]. *)
Definition initial : Window :=
  {| oscilloscope := None; time := None; voltage := None;
     waveform_color := "yellow"; status := "Status: Disconnected";
     buttons := {| disconnect_on := false; apply_on := false;
                   get_data_on := false; color_on := false |};
     dialogs := []; plots := [] |}.

(** The widgets' initial values set in [_setup_ui]. *)
Definition default_form : Form :=
  {| resource_text := "USB0::0x1AB1::0x0517::DS1ZE242906834::INSTR";
     channel_text := "1"; timebase_value := 200e-6%float; voltage_value := 1%float;
     trigger_mode_text := "EDGE"; trigger_source_text := "1";
     trigger_slope_text := "Positive"; trigger_level_value := 1.5%float |}.

End MainWindow.

(** An action on the object that keeps its attributes and only adds
    calls to the transport, whatever its outcome. *)
Definition keeps_osc {A} (m : M A) : Prop :=
  forall s r s', m s = (r, s') -> osc s' = osc s /\ exists l, sent s' = (sent s ++ l)%list.

(** The instrument [tr], answering every [:WAV:PRE?] query with [pre]. *)
Definition answer_preamble (pre : string) (tr : list io -> io -> option reply)
    (past : list io) (e : io) : option reply :=
  match e with
  | IQuery c => if String.eqb c ":WAV:PRE?" then Some (RStr pre) else tr past e
  | _ => tr past e
  end.

(** ** A concrete instrument, used to run the methods *)

Module Demo.

(** Python's [float()] on the few strings the examples use (the table
    holds Python's results; [float()] strips surrounding whitespace). *)
Definition float_table : list (string * float) :=
  [("0", 0%float); ("1", 1%float); ("0.0", 0%float); ("1.0", 1%float);
   ("1e-06", 1e-6%float); ("2.7", 2.7%float); ("0.5", 0.5%float)].

Definition py_float_of_string (a : string) : option float :=
  option_map snd (find (fun kv => String.eqb (fst kv) (strip a)) float_table).

(** Stands for Python's float formatting; only setters use it. *)
Definition py_float_repr (x : float) : string := "1.0".

Definition idn : string := "RIGOL TECHNOLOGIES,DS1054Z,DS1ZA000000000,00.04.04".

(** An instrument that accepts every command and answers the identity
    query and the queries of [get_waveform] on channel 1 with the given
    preamble, samples, scale and probe factor. *)
Definition scope (idn preamble : string) (data : list Byte.byte) (scale probe : string)
    (past : list io) (e : io) : option reply :=
  match e with
  | IOpen _ | IWrite _ | IClose => Some RNone
  | IQuery c =>
      if String.eqb c "*IDN?" then Some (RStr idn)
      else if String.eqb c ":WAV:FORM?" then Some (RStr "BYTE")
      else if String.eqb c ":WAV:PRE?" then Some (RStr preamble)
      else if String.eqb c ":CHAN1:SCAL?" then Some (RStr scale)
      else if String.eqb c ":CHAN1:PROB?" then Some (RStr probe)
      else None
  | IQueryBinary _ => Some (RBytes data)
  end.

Definition fresh : session :=
  {| osc := {| resource_name := "USB0::0x1AB1::0x04CE::DS1ZA000000000::INSTR";
               inst := None |};
     sent := [] |}.

Definition connected : session :=
  {| osc := {| resource_name := resource_name (osc fresh);
               inst := Some {| resource_of := resource_name (osc fresh) |} |};
     sent := [IOpen (resource_name (osc fresh)); IQuery "*IDN?"] |}.

(** The same instrument, raising on the calls [bad] selects. *)
Definition failing (bad : io -> bool) (dev : list io -> io -> option reply)
    (past : list io) (e : io) : option reply :=
  if bad e then None else dev past e.

Definition is_idn_query (e : io) : bool :=
  match e with IQuery c => String.eqb c "*IDN?" | _ => false end.
Definition is_close (e : io) : bool :=
  match e with IClose => true | _ => false end.

Definition preamble_ok : string := "0,2,3,1,1e-06,0,0,1,0,0" ++ String (ascii_of_nat 10) EmptyString.



(** The samples of the spec's scenario: 130, 155, 105. *)
Definition samples : list Byte.byte := [Byte.x82; Byte.x9b; Byte.x69].

(** A preamble announcing 5 points. *)
Definition preamble_5_points : string := "0,2,5,1,1e-06,0,0,1,0,0".

(** A preamble whose point count is not a number. *)
Definition preamble_bad_points : string := "0,2,abc,1,1,0,0,1,0,0".

(** [get_waveform(1)] on a connected instrument. *)
Definition read (preamble : string) (data : list Byte.byte) (scale probe : string) :=
  get_waveform (scope idn preamble data scale probe) py_float_of_string 1 connected.

End Demo.

(** Two distinct binary64 values (possibly under [Some]) differ. *)
Ltac float_neq :=
  let H := fresh in
  intro H;
  apply (f_equal (fun o => match o with Some x => Prim2SF x | None => S754_nan end)) in H;
  vm_compute in H; discriminate.

(** ** Conversion of samples *)

Lemma wrap64_small (z : Z) : fits_int64 z = true -> wrap64 z = z.
Proof.
  unfold fits_int64, int64_min, int64_max, wrap64; intros H.
  apply andb_true_iff in H as [H1 H2]; apply Z.leb_le in H1, H2.
  rewrite Z.mod_small; lia.
Qed.

Lemma convert_ok_inv data xi xo xr vs pa time voltage :
  convert data xi xo xr vs pa = Ok (time, voltage) ->
  PrimFloat.eqb pa 0%float = false /\ fits_int64 xr = true /\
  voltage = map (voltage_of_sample (vs / pa)%float) data /\
  time = map (time_of_index xr xi xo) (seq 0 (List.length data)).
Proof.
  unfold convert, py_float_div.
  destruct (PrimFloat.eqb pa 0%float) eqn:Hpa; [discriminate|].
  destruct (fits_int64 xr) eqn:Hx; [|discriminate].
  intros H; injection H as <- <-; auto.
Qed.

(** C1 (as amended): [get_waveform]'s conversion computes, for the byte [d] at index [i],
    [voltage[i] = ((d - 130.0) / 25.0) * (vertical_scale / probe_attenuation)]
    and [time[i] = (i - x_reference) * x_increment + x_origin], where
    [i - x_reference] is numpy int64 arithmetic (wrapping modulo 2^64; it is
    the plain difference whenever it fits int64); on the spec's scenario
    it gives [voltage = [0.0, 1.0, -1.0]] and [time = [0.0, 1e-6, 2e-6]]. *)
Theorem convert_sample_formula :
  convert [130; 155; 105] 1e-6%float 0%float 0 1%float 1%float
    = Ok ([0%float; 1e-6%float; 2e-6%float], [0%float; 1%float; (-1)%float]) /\
  forall data x_increment x_origin x_reference vertical_scale probe_attenuation
         time voltage,
    convert data x_increment x_origin x_reference vertical_scale probe_attenuation
      = Ok (time, voltage) ->
    forall i d, nth_error data i = Some d ->
      nth_error voltage i =
        Some (((float_of_Z d - 130.0) / 25.0) * (vertical_scale / probe_attenuation))%float /\
      nth_error time i =
        Some (float_of_Z (wrap64 (Z.of_nat i - x_reference)) * x_increment + x_origin)%float /\
      (fits_int64 (Z.of_nat i - x_reference) = true ->
       nth_error time i =
         Some (float_of_Z (Z.of_nat i - x_reference) * x_increment + x_origin)%float).
Proof.
  split; [vm_compute; reflexivity|].
  intros data xi xo xr vs pa time voltage Hc i d Hd.
  apply convert_ok_inv in Hc as (_ & _ & -> & ->).
  assert (Hi : Nat.ltb i (List.length data) = true)
    by (apply Nat.ltb_lt, nth_error_Some; congruence).
  rewrite !nth_error_map, nth_error_seq, Hi, Hd; cbn.
  split; [reflexivity|]; split; [reflexivity|].
  intros Hf; rewrite wrap64_small by exact Hf; reflexivity.
Qed.

Lemma convert_sample_formula_witness :
  nth_error [130; 155; 105] 1%nat = Some 155 /\
  nth_error (fst ([0%float; 1e-6%float; 2e-6%float], [0%float; 1%float; (-1)%float])) 1%nat
    = Some (float_of_Z (Z.of_nat 1 - 0) * 1e-6 + 0)%float.
Proof.
  split; [reflexivity|].
  exact (proj2 (proj2 (proj2 convert_sample_formula [130; 155; 105] 1e-6%float 0%float 0
    1%float 1%float _ _ (proj1 convert_sample_formula) 1%nat 155 eq_refl)) eq_refl).
Defined.

(** C1: the claim's [time] formula with exact integer [i - x_reference]
    fails when numpy's int64 subtraction wraps: with
    [x_reference = -2^63] the time at index 1 is about [-9.2e18], not
    [(1 + 2^63) * 1.0 + 0.0]. *)
Lemma convert_x_reference_wraps :
  match convert [130; 130] 1%float 0%float int64_min 1%float 1%float with
  | Ok (time, _) =>
      nth_error time 1%nat <> Some (float_of_Z (1 - int64_min) * 1 + 0)%float
  | Err _ => False
  end.
Proof.
  vm_compute. float_neq.
Qed.

(** ** The read path of [get_waveform] *)


Lemma bind_ok_inv {A B} (m : M A) (k : A -> M B) s b s' :
  bind m k s = (Ok b, s') -> exists a s1, m s = (Ok a, s1) /\ k a s1 = (Ok b, s').
Proof.
  unfold bind; destruct (m s) as [[a|e] s1]; [eauto | discriminate].
Qed.

Lemma lift_ok_inv {A} (r : result A) a s s' : lift r s = (Ok a, s') -> r = Ok a /\ s' = s.
Proof. destruct r; cbn; intros H; injection H; intros; subst; auto; discriminate. Qed.

Lemma send_ok_inv tr e s a s' :
  send tr e s = (Ok a, s') -> tr (sent s) e = Some a /\ s' = log_call s e.
Proof.
  unfold send; destruct (tr (sent s) e); intros H; injection H; intros; subst; auto.
  discriminate.
Qed.

Lemma inst_write_ok_inv tr c s u s' :
  inst_write tr c s = (Ok u, s') -> s' = log_call s (IWrite c).
Proof.
  unfold inst_write, bind, get_inst; destruct (inst (osc s)); [|discriminate].
  destruct (send tr (IWrite c) s) as [[a|e] s1] eqn:E; [|discriminate].
  apply send_ok_inv in E as [_ ->]; cbn; intros H; injection H; auto.
Qed.

Lemma inst_query_ok_inv tr c s a s' :
  inst_query tr c s = (Ok a, s') ->
  tr (sent s) (IQuery c) = Some (RStr a) /\ s' = log_call s (IQuery c).
Proof.
  unfold inst_query, bind, get_inst; destruct (inst (osc s)); [|discriminate].
  destruct (send tr (IQuery c) s) as [[rep|e] s1] eqn:E; [|discriminate].
  apply send_ok_inv in E as [E ->].
  destruct rep; cbn; intros H; try discriminate; injection H as -> ->; auto.
Qed.

Lemma inst_query_binary_ok_inv tr c s a s' :
  inst_query_binary tr c s = (Ok a, s') ->
  exists bytes, tr (sent s) (IQueryBinary c) = Some (RBytes bytes) /\
    a = byte_values bytes /\ s' = log_call s (IQueryBinary c).
Proof.
  unfold inst_query_binary, bind, get_inst; destruct (inst (osc s)); [|discriminate].
  destruct (send tr (IQueryBinary c) s) as [[rep|e] s1] eqn:E; [|discriminate].
  apply send_ok_inv in E as [E ->].
  destruct rep; cbn; intros H; try discriminate; injection H as Ha Hs; subst; eauto.
Qed.

(** Peels one [bind] off a successful run [H]. *)
Ltac peel H :=
  let a := fresh "a" in let s1 := fresh "s" in let H1 := fresh "H" in
  apply bind_ok_inv in H as (a & s1 & H1 & H).

Lemma get_waveform_ok_inv tr pf ch s r tv s' :
  inst (osc s) = Some r ->
  get_waveform tr pf ch s = (Ok tv, s') ->
  exists preamble p bytes vertical_scale probe_attenuation,
    tr (sent s ++ [IWrite (":WAV:SOUR CHAN" ++ py_str_Z ch); IWrite ":WAV:FORM BYTE";
                   IWrite ":WAV:MODE NORMAL"; IQuery ":WAV:FORM?"])%list
       (IQuery ":WAV:PRE?") = Some (RStr preamble) /\
    parse_preamble pf preamble = Ok p /\
    convert (byte_values bytes) (x_increment p) (x_origin p) (x_reference p)
            vertical_scale probe_attenuation = Ok tv /\
    sent s' = (sent s ++
      [IWrite (":WAV:SOUR CHAN" ++ py_str_Z ch); IWrite ":WAV:FORM BYTE";
       IWrite ":WAV:MODE NORMAL"; IQuery ":WAV:FORM?"; IQuery ":WAV:PRE?";
       IQueryBinary ":WAV:DATA?"; IQuery (":CHAN" ++ py_str_Z ch ++ ":SCAL?");
       IQuery (":CHAN" ++ py_str_Z ch ++ ":PROB?")])%list /\
    osc s' = osc s.
Proof.
  intros Hi H. unfold get_waveform in H.
  peel H. injection H0 as <- <-. rewrite Hi in H.
  peel H. apply inst_write_ok_inv in H0 as ->.
  peel H. apply inst_write_ok_inv in H0 as ->.
  peel H. apply inst_write_ok_inv in H0 as ->.
  peel H. apply inst_query_ok_inv in H0 as [_ ->].
  peel H. apply inst_query_ok_inv in H0 as [Epre ->].
  peel H. apply lift_ok_inv in H0 as [Ep ->].
  peel H. apply inst_query_binary_ok_inv in H0 as (bytes & _ & -> & ->).
  peel H. apply inst_query_ok_inv in H0 as [_ ->].
  peel H. apply lift_ok_inv in H0 as [Evs ->].
  peel H. apply inst_query_ok_inv in H0 as [_ ->].
  peel H. apply lift_ok_inv in H0 as [Epa ->].
  apply lift_ok_inv in H as [Ec ->].
  unfold log_call in *; cbn [sent osc] in *.
  rewrite <- !app_assoc in *; cbn [app] in *.
  do 5 eexists; repeat split; eauto.
Qed.

(** ** Lengths of the outputs *)

(** C2: The conversion returns [time] and [voltage] both of length [len(data)]
    (for every block, whenever [probe_attenuation] is non-zero and
    [x_reference] fits int64); a successful [get_waveform] returns two
    sequences of the same length; and the preamble's point count is never
    compared with the block: a preamble announcing 5 points with a block
    of 3 bytes gives outputs of length 3. *)
Theorem waveform_output_lengths :
  (forall data x_increment x_origin x_reference vertical_scale probe_attenuation,
    PrimFloat.eqb probe_attenuation 0%float = false ->
    fits_int64 x_reference = true ->
    exists time voltage,
      convert data x_increment x_origin x_reference vertical_scale probe_attenuation
        = Ok (time, voltage) /\
      List.length time = List.length data /\ List.length voltage = List.length data) /\
  (forall tr pf channel s r time voltage s',
    inst (osc s) = Some r ->
    get_waveform tr pf channel s = (Ok (time, voltage), s') ->
    List.length time = List.length voltage) /\
  (exists time voltage,
    fst (Demo.read Demo.preamble_5_points Demo.samples "1" "1") = Ok (time, voltage) /\
    List.length time = 3%nat /\ List.length voltage = 3%nat).
Proof.
  split; [|split].
  - intros data xi xo xr vs pa Hpa Hx.
    unfold convert, py_float_div; rewrite Hpa, Hx.
    do 2 eexists; split; [reflexivity|].
    rewrite !length_map, length_seq; auto.
  - intros tr pf ch s r time voltage s' Hi H.
    apply get_waveform_ok_inv with (r := r) in H as (pre & p & bytes & vs & pa & _ & _ & Hc & _);
      [|exact Hi].
    apply convert_ok_inv in Hc as (_ & _ & -> & ->).
    rewrite !length_map, length_seq; reflexivity.
  - vm_compute. do 2 eexists; split; [reflexivity|]; split; reflexivity.
Qed.

Lemma waveform_output_lengths_witness :
  exists time voltage,
    convert [130; 155; 105] 1e-6%float 0%float 0 1%float 1%float = Ok (time, voltage) /\
    List.length time = 3%nat /\ List.length voltage = 3%nat.
Proof.
  exact (proj1 waveform_output_lengths [130; 155; 105] 1e-6%float 0%float 0 1%float 1%float
           eq_refl eq_refl).
Defined.

(** ** Order of the calls of [get_waveform] *)

(** C7: A successful [get_waveform(channel)] makes exactly these transport
    calls, in this order: select the source channel, set the format to
    BYTE, set the mode to NORMAL, query the format, query the preamble,
    query the binary data block, query the channel's vertical scale, query
    the channel's probe attenuation; the conversion uses no further call. *)
Theorem get_waveform_call_order tr pf channel s r tv s' :
  inst (osc s) = Some r ->
  get_waveform tr pf channel s = (Ok tv, s') ->
  sent s' = (sent s ++
    [IWrite (":WAV:SOUR CHAN" ++ py_str_Z channel);
     IWrite ":WAV:FORM BYTE"; IWrite ":WAV:MODE NORMAL";
     IQuery ":WAV:FORM?";
     IQuery ":WAV:PRE?";
     IQueryBinary ":WAV:DATA?";
     IQuery (":CHAN" ++ py_str_Z channel ++ ":SCAL?");
     IQuery (":CHAN" ++ py_str_Z channel ++ ":PROB?")])%list.
Proof.
  intros Hi H.
  apply get_waveform_ok_inv with (r := r) in H as (_ & _ & _ & _ & _ & _ & _ & _ & Hs & _);
    [exact Hs | exact Hi].
Qed.

Lemma get_waveform_call_order_witness :
  sent (snd (Demo.read Demo.preamble_ok Demo.samples "1" "1")) =
  (sent Demo.connected ++
    [IWrite (":WAV:SOUR CHAN" ++ py_str_Z 1);
     IWrite ":WAV:FORM BYTE"; IWrite ":WAV:MODE NORMAL";
     IQuery ":WAV:FORM?";
     IQuery ":WAV:PRE?";
     IQueryBinary ":WAV:DATA?";
     IQuery (":CHAN" ++ py_str_Z 1 ++ ":SCAL?");
     IQuery (":CHAN" ++ py_str_Z 1 ++ ":PROB?")])%list.
Proof.
  apply (get_waveform_call_order
           (Demo.scope Demo.idn Demo.preamble_ok Demo.samples "1" "1")
           Demo.py_float_of_string 1 Demo.connected
           {| resource_of := resource_name (osc Demo.fresh) |}
           ([0%float; 1e-6%float; 2e-6%float], [0%float; 1%float; (-1)%float])).
  - reflexivity.
  - unfold Demo.read. vm_compute. reflexivity.
Defined.

(** ** Zero probe attenuation *)

(** C8: With [probe_attenuation == 0.0] (also [-0.0]) the conversion raises
    ZeroDivisionError (an ArithmeticError) at the division
    [vertical_scale / probe_attenuation]: no samples are returned. *)
Theorem convert_probe_attenuation_zero :
  forall data x_increment x_origin x_reference vertical_scale,
    convert data x_increment x_origin x_reference vertical_scale 0%float
      = Err ZeroDivisionError /\
    convert data x_increment x_origin x_reference vertical_scale (-0)%float
      = Err ZeroDivisionError.
Proof. intros; split; reflexivity. Qed.

(** ** Parsing the preamble *)

Lemma unpack_preamble_short pf fields :
  (List.length fields < 10)%nat -> unpack_preamble pf fields = Err ValueError.
Proof.
  intros H; unfold unpack_preamble.
  do 10 (destruct fields as [|? fields]; [reflexivity|]); cbn in H; lia.
Qed.

Lemma unpack_preamble_eq pf f0 f1 f2 f3 f4 f5 f6 f7 f8 f9 rest :
  unpack_preamble pf ([f0; f1; f2; f3; f4; f5; f6; f7; f8; f9] ++ rest)%list =
  (xi <-? py_float pf f4;;
   xo <-? py_float pf f5;;
   xr <-? py_int_float pf f6;;
   yi <-? py_float pf f7;;
   yo <-? py_float pf f8;;
   yr <-? py_int_float pf f9;;
   Ok {| format_code := f0; type_code := f1; points := f2; count := f3;
         x_increment := xi; x_origin := xo; x_reference := xr;
         y_increment := yi; y_origin := yo; y_reference := yr |}).
Proof. reflexivity. Qed.

(** C3 (as amended): A preamble with fewer than 10 comma-separated fields makes the
    unpacking raise ValueError; a preamble is accepted only if its six
    fields x_increment, x_origin, x_reference, y_increment, y_origin and
    y_reference convert ([float], resp. [int(float(.))]); the first four
    fields are never converted, whatever they hold; and [get_waveform]
    returns no samples (it raises) whenever the preamble it reads does not
    parse. *)
Theorem preamble_rejection :
  (forall pf preamble,
    (List.length (split_comma (strip preamble)) < 10)%nat ->
    parse_preamble pf preamble = Err ValueError) /\
  (forall pf f0 f1 f2 f3 f4 f5 f6 f7 f8 f9 rest p,
    unpack_preamble pf ([f0; f1; f2; f3; f4; f5; f6; f7; f8; f9] ++ rest)%list = Ok p ->
    py_float pf f4 = Ok (x_increment p) /\ py_float pf f5 = Ok (x_origin p) /\
    py_int_float pf f6 = Ok (x_reference p) /\ py_float pf f7 = Ok (y_increment p) /\
    py_float pf f8 = Ok (y_origin p) /\ py_int_float pf f9 = Ok (y_reference p)) /\
  (forall pf f0 f1 f2 f3 g0 g1 g2 g3 rest,
    unpack_preamble pf ([g0; g1; g2; g3] ++ rest)%list =
    match unpack_preamble pf ([f0; f1; f2; f3] ++ rest)%list with
    | Ok p => Ok {| format_code := g0; type_code := g1; points := g2; count := g3;
                    x_increment := x_increment p; x_origin := x_origin p;
                    x_reference := x_reference p; y_increment := y_increment p;
                    y_origin := y_origin p; y_reference := y_reference p |}
    | Err e => Err e
    end) /\
  (forall tr pf channel s r preamble e,
    inst (osc s) = Some r ->
    tr (sent s ++ [IWrite (":WAV:SOUR CHAN" ++ py_str_Z channel); IWrite ":WAV:FORM BYTE";
                   IWrite ":WAV:MODE NORMAL"; IQuery ":WAV:FORM?"])%list
       (IQuery ":WAV:PRE?") = Some (RStr preamble) ->
    parse_preamble pf preamble = Err e ->
    exists e', fst (get_waveform tr pf channel s) = Err e').
Proof.
  split; [|split; [|split]].
  - intros pf pre H; exact (unpack_preamble_short pf _ H).
  - intros pf f0 f1 f2 f3 f4 f5 f6 f7 f8 f9 rest p.
    rewrite unpack_preamble_eq.
    destruct (py_float pf f4); [|discriminate]; cbn.
    destruct (py_float pf f5); [|discriminate]; cbn.
    destruct (py_int_float pf f6); [|discriminate]; cbn.
    destruct (py_float pf f7); [|discriminate]; cbn.
    destruct (py_float pf f8); [|discriminate]; cbn.
    destruct (py_int_float pf f9); [|discriminate]; cbn.
    intros H; injection H as <-; cbn; auto 10.
  - intros pf f0 f1 f2 f3 g0 g1 g2 g3 rest.
    do 6 (destruct rest as [|? rest]; [reflexivity|]).
    change ([g0; g1; g2; g3] ++ ?x :: ?y :: ?z :: ?u :: ?v :: ?w :: rest)%list
      with ([g0; g1; g2; g3; x; y; z; u; v; w] ++ rest)%list.
    change ([f0; f1; f2; f3] ++ ?x :: ?y :: ?z :: ?u :: ?v :: ?w :: rest)%list
      with ([f0; f1; f2; f3; x; y; z; u; v; w] ++ rest)%list.
    rewrite !unpack_preamble_eq.
    repeat match goal with |- context [rbind ?r _] => destruct r; cbn end;
      reflexivity.
  - intros tr pf ch s r pre e Hi Htr Hp.
    destruct (get_waveform tr pf ch s) as [[tv|e'] s'] eqn:E; [|cbn; eauto].
    apply get_waveform_ok_inv with (r := r) in E as (pre' & p & _ & _ & _ & Htr' & Hp' & _);
      [|exact Hi].
    rewrite Htr in Htr'; injection Htr' as <-; congruence.
Qed.

Lemma preamble_rejection_witness :
  parse_preamble Demo.py_float_of_string "0,2,3,1,1e-06,0,0" = Err ValueError.
Proof.
  apply (proj1 preamble_rejection). vm_compute. lia.
Defined.

(** C3: a preamble whose point count is not numeric ("abc", which
    Python's [float] and [int] reject) is accepted and [get_waveform]
    returns samples. *)
Lemma get_waveform_ignores_point_count :
  Demo.py_float_of_string "abc" = None /\
  exists tv, fst (Demo.read Demo.preamble_bad_points Demo.samples "1" "1") = Ok tv.
Proof. vm_compute. split; [reflexivity|]. eexists; reflexivity. Qed.

(** C10: [x_reference] and [y_reference] are read as [int(float(field))]: a
    field that parses as a finite float with a fractional part is accepted
    and truncated toward zero ("2.7" gives 2), and [get_waveform] then uses
    the truncated value in [time]. *)
Theorem preamble_reference_truncated :
  py_int_of_float 2.7%float = Ok 2 /\
  py_int_of_float (-2.7)%float = Ok (-2) /\
  (forall pf f0 f1 f2 f3 f4 f5 f6 f7 f8 f9 rest xi xo xrf yi yo yrf xr yr,
    py_float pf f4 = Ok xi -> py_float pf f5 = Ok xo ->
    py_float pf f6 = Ok xrf -> py_int_of_float xrf = Ok xr ->
    py_float pf f7 = Ok yi -> py_float pf f8 = Ok yo ->
    py_float pf f9 = Ok yrf -> py_int_of_float yrf = Ok yr ->
    unpack_preamble pf ([f0; f1; f2; f3; f4; f5; f6; f7; f8; f9] ++ rest)%list =
      Ok {| format_code := f0; type_code := f1; points := f2; count := f3;
            x_increment := xi; x_origin := xo; x_reference := xr;
            y_increment := yi; y_origin := yo; y_reference := yr |}) /\
  fst (Demo.read "0,2,3,1,1e-06,0,2.7,1,0,2.7" Demo.samples "1" "1")
    = Ok ([(-2e-6)%float; (-1e-6)%float; 0%float], [0%float; 1%float; (-1)%float]).
Proof.
  split; [reflexivity|]. split; [reflexivity|]. split.
  - intros pf f0 f1 f2 f3 f4 f5 f6 f7 f8 f9 rest xi xo xrf yi yo yrf xr yr
      H4 H5 H6 H6' H7 H8 H9 H9'.
    rewrite unpack_preamble_eq; unfold py_int_float.
    rewrite H4, H5, H6; cbn; rewrite H6', H7; cbn; rewrite H8, H9; cbn; rewrite H9'.
    reflexivity.
  - vm_compute. reflexivity.
Qed.

Lemma preamble_reference_truncated_witness :
  parse_preamble Demo.py_float_of_string "0,2,3,1,1e-06,0,2.7,1,0,2.7" =
    Ok {| format_code := "0"; type_code := "2"; points := "3"; count := "1";
          x_increment := 1e-6%float; x_origin := 0%float; x_reference := 2;
          y_increment := 1%float; y_origin := 0%float; y_reference := 2 |}.
Proof.
  exact (proj1 (proj2 (proj2 preamble_reference_truncated))
    Demo.py_float_of_string "0" "2" "3" "1" "1e-06" "0" "2.7" "1" "0" "2.7" []
    1e-6%float 0%float 2.7%float 1%float 0%float 2.7%float 2 2
    eq_refl eq_refl eq_refl eq_refl eq_refl eq_refl eq_refl eq_refl).
Defined.

(** ** Calls made while disconnected *)

Lemma inst_write_disconnected tr c s :
  inst (osc s) = None -> inst_write tr c s = (Err AttributeError, s).
Proof. intros H; unfold inst_write, bind, get_inst; rewrite H; reflexivity. Qed.

(** C4: With [self.inst] None (never connected, or after a successful
    [disconnect]), every setter raises AttributeError ([None.write]) and
    [get_waveform] raises the not-connected Exception; none of them makes
    a transport call or changes the object. *)
Theorem disconnected_calls tr pf repr s :
  inst (osc s) = None ->
  (forall channel, set_channel tr channel s = (Err AttributeError, s)) /\
  (forall t, set_timebase tr repr t s = (Err AttributeError, s)) /\
  (forall channel v, set_voltage_scale tr repr channel v s = (Err AttributeError, s)) /\
  (forall mode source slope level,
     set_trigger tr repr mode source slope level s = (Err AttributeError, s)) /\
  (forall channel, get_waveform tr pf channel s = (Err NotConnected, s)).
Proof.
  intros H.
  split; [|split; [|split; [|split]]]; intros.
  - apply inst_write_disconnected, H.
  - apply inst_write_disconnected, H.
  - apply inst_write_disconnected, H.
  - unfold set_trigger, bind at 1; rewrite inst_write_disconnected by exact H; reflexivity.
  - unfold get_waveform, bind, get_inst; rewrite H; reflexivity.
Qed.

Lemma disconnected_calls_witness :
  set_trigger (Demo.scope Demo.idn Demo.preamble_ok Demo.samples "1" "1")
    Demo.py_float_repr "EDGE" 1 "POS" 0.5%float
    (snd (disconnect (Demo.scope Demo.idn Demo.preamble_ok Demo.samples "1" "1")
            (snd (connect (Demo.scope Demo.idn Demo.preamble_ok Demo.samples "1" "1")
                    Demo.fresh))))
  = (Err AttributeError,
     snd (disconnect (Demo.scope Demo.idn Demo.preamble_ok Demo.samples "1" "1")
            (snd (connect (Demo.scope Demo.idn Demo.preamble_ok Demo.samples "1" "1")
                    Demo.fresh)))).
Proof.
  apply (disconnected_calls (Demo.scope Demo.idn Demo.preamble_ok Demo.samples "1" "1")
           Demo.py_float_of_string Demo.py_float_repr).
  vm_compute. reflexivity.
Defined.

(** ** Connecting *)

Lemma connect_eq tr s :
  connect tr s =
  match tr (sent s) (IOpen (resource_name (osc s))) with
  | None => (Err VisaIOError, log_call s (IOpen (resource_name (osc s))))
  | Some _ =>
      let s1 := with_inst (log_call s (IOpen (resource_name (osc s))))
                  (Some {| resource_of := resource_name (osc s) |}) in
      match tr (sent s1) (IQuery "*IDN?") with
      | Some (RStr _) => (Ok tt, log_call s1 (IQuery "*IDN?"))
      | _ => (Err VisaIOError, log_call s1 (IQuery "*IDN?"))
      end
  end.
Proof.
  unfold connect, inst_query, get_resource_name, set_inst, get_inst, ret, raise, bind, send.
  destruct (tr (sent s) (IOpen (resource_name (osc s)))); [|reflexivity]; cbn.
  destruct (tr _ (IQuery "*IDN?")) as [[]|]; reflexivity.
Qed.

(** C5 (as amended): If [rm.open_resource] raises, [connect] raises that error and leaves
    [self.inst] as it was (None when disconnected).  If it succeeds but the
    [*IDN?] query raises, [connect] raises that error with [self.inst]
    already set to the opened resource: the object is left connected. *)
Theorem connect_failure tr s rep :
  (tr (sent s) (IOpen (resource_name (osc s))) = None ->
   connect tr s = (Err VisaIOError, log_call s (IOpen (resource_name (osc s)))) /\
   inst (osc (log_call s (IOpen (resource_name (osc s))))) = inst (osc s)) /\
  (tr (sent s) (IOpen (resource_name (osc s))) = Some rep ->
   tr (sent s ++ [IOpen (resource_name (osc s))])%list (IQuery "*IDN?") = None ->
   connect tr s =
     (Err VisaIOError,
      {| osc := {| resource_name := resource_name (osc s);
                   inst := Some {| resource_of := resource_name (osc s) |} |};
         sent := sent s ++ [IOpen (resource_name (osc s)); IQuery "*IDN?"] |})).
Proof.
  split.
  - intros Ho; rewrite connect_eq, Ho; split; reflexivity.
  - intros Ho Hq; rewrite connect_eq, Ho; cbn; rewrite Hq.
    unfold log_call; cbn; rewrite <- app_assoc; reflexivity.
Qed.

Lemma connect_failure_witness :
  connect (Demo.failing Demo.is_idn_query
             (Demo.scope Demo.idn Demo.preamble_ok Demo.samples "1" "1")) Demo.fresh =
  (Err VisaIOError,
   {| osc := {| resource_name := resource_name (osc Demo.fresh);
                inst := Some {| resource_of := resource_name (osc Demo.fresh) |} |};
      sent := sent Demo.fresh ++ [IOpen (resource_name (osc Demo.fresh)); IQuery "*IDN?"] |}).
Proof.
  apply (proj2 (connect_failure
                  (Demo.failing Demo.is_idn_query
                     (Demo.scope Demo.idn Demo.preamble_ok Demo.samples "1" "1"))
                  Demo.fresh RNone)); vm_compute; reflexivity.
Defined.

(** C5: when the identity query fails, [connect] raises but the object
    keeps the opened resource in [self.inst]. *)
Lemma connect_idn_failure_keeps_resource :
  fst (connect (Demo.failing Demo.is_idn_query
                  (Demo.scope Demo.idn Demo.preamble_ok Demo.samples "1" "1")) Demo.fresh)
    = Err VisaIOError /\
  inst (osc (snd (connect (Demo.failing Demo.is_idn_query
                  (Demo.scope Demo.idn Demo.preamble_ok Demo.samples "1" "1")) Demo.fresh)))
    <> None.
Proof. vm_compute. split; [reflexivity | discriminate]. Qed.

(** C6 (as amended): When the resource opens and [*IDN?] is answered, [connect] makes
    exactly the calls [open_resource(resource_name)] and [query('*IDN?')],
    stores the resource in [self.inst] and returns None: the identity
    string is only printed. *)
Theorem connect_success tr s rep idn :
  tr (sent s) (IOpen (resource_name (osc s))) = Some rep ->
  tr (sent s ++ [IOpen (resource_name (osc s))])%list (IQuery "*IDN?") = Some (RStr idn) ->
  connect tr s =
    (Ok tt,
     {| osc := {| resource_name := resource_name (osc s);
                  inst := Some {| resource_of := resource_name (osc s) |} |};
        sent := sent s ++ [IOpen (resource_name (osc s)); IQuery "*IDN?"] |}).
Proof.
  intros Ho Hq; rewrite connect_eq, Ho; cbn; rewrite Hq.
  unfold log_call; cbn; rewrite <- app_assoc; reflexivity.
Qed.

Lemma connect_success_witness :
  connect (Demo.scope Demo.idn Demo.preamble_ok Demo.samples "1" "1") Demo.fresh =
  (Ok tt, Demo.connected).
Proof.
  apply (connect_success (Demo.scope Demo.idn Demo.preamble_ok Demo.samples "1" "1")
           Demo.fresh RNone Demo.idn); reflexivity.
Defined.

(** C6: two instruments with different identity strings give the same
    result of [connect]; the identity string is not returned. *)
Lemma connect_returns_none :
  "RIGOL A" <> "RIGOL B" /\
  fst (connect (Demo.scope "RIGOL A" Demo.preamble_ok Demo.samples "1" "1") Demo.fresh) =
  fst (connect (Demo.scope "RIGOL B" Demo.preamble_ok Demo.samples "1" "1") Demo.fresh).
Proof. split; [discriminate | vm_compute; reflexivity]. Qed.

(** ** Disconnecting *)

Lemma disconnect_eq tr s :
  disconnect tr s =
  match inst (osc s) with
  | None => (Ok tt, s)
  | Some _ =>
      match tr (sent s) IClose with
      | Some _ => (Ok tt, with_inst (log_call s IClose) None)
      | None => (Err VisaIOError, log_call s IClose)
      end
  end.
Proof.
  unfold disconnect, get_inst, set_inst, ret, bind, send.
  destruct (inst (osc s)); [|reflexivity].
  destruct (tr (sent s) IClose); reflexivity.
Qed.

(** C9 (as amended): [disconnect] with [self.inst] None is a no-op that does not raise;
    with a resource it calls [close()] and, if that returns, sets
    [self.inst] to None; if [close()] raises, the error propagates and
    [self.inst] keeps the resource.  After a [disconnect] that returned,
    a second [disconnect] is a no-op (same result, same state). *)
Theorem disconnect_behaviour tr s :
  (inst (osc s) = None -> disconnect tr s = (Ok tt, s)) /\
  (forall r rep, inst (osc s) = Some r -> tr (sent s) IClose = Some rep ->
     disconnect tr s = (Ok tt, with_inst (log_call s IClose) None)) /\
  (forall r, inst (osc s) = Some r -> tr (sent s) IClose = None ->
     disconnect tr s = (Err VisaIOError, log_call s IClose) /\
     inst (osc (log_call s IClose)) = Some r) /\
  (forall s', disconnect tr s = (Ok tt, s') ->
     inst (osc s') = None /\ disconnect tr s' = (Ok tt, s')).
Proof.
  split; [|split; [|split]].
  - intros H; rewrite disconnect_eq, H; reflexivity.
  - intros r rep H Hc; rewrite disconnect_eq, H, Hc; reflexivity.
  - intros r H Hc; rewrite disconnect_eq, H, Hc; split; [reflexivity | exact H].
  - intros s' Hd; rewrite disconnect_eq in Hd.
    assert (Hn : inst (osc s') = None).
    { destruct (inst (osc s)) eqn:Hi.
      - destruct (tr (sent s) IClose); inversion Hd; subst; reflexivity.
      - inversion Hd; subst; exact Hi. }
    split; [exact Hn|]; rewrite disconnect_eq, Hn; reflexivity.
Qed.

Lemma disconnect_behaviour_witness :
  disconnect (Demo.scope Demo.idn Demo.preamble_ok Demo.samples "1" "1") Demo.connected =
  (Ok tt, with_inst (log_call Demo.connected IClose) None).
Proof.
  apply (proj1 (proj2 (disconnect_behaviour
                         (Demo.scope Demo.idn Demo.preamble_ok Demo.samples "1" "1")
                         Demo.connected))
           {| resource_of := resource_name (osc Demo.fresh) |} RNone);
    reflexivity.
Defined.

(** C9: when [close()] raises, [disconnect] raises and the object stays
    connected; a second [disconnect] calls [close()] again. *)
Lemma disconnect_close_failure :
  let dev := Demo.failing Demo.is_close
               (Demo.scope Demo.idn Demo.preamble_ok Demo.samples "1" "1") in
  fst (disconnect dev Demo.connected) = Err VisaIOError /\
  inst (osc (snd (disconnect dev Demo.connected))) <> None /\
  snd (disconnect dev (snd (disconnect dev Demo.connected)))
    <> snd (disconnect dev Demo.connected).
Proof. vm_compute. split; [reflexivity | split; discriminate]. Qed.

(** * Further properties of the code *)

(** ** Invariants of the [Oscilloscope] methods *)

Lemma bind_keeps {A B} (m : M A) (k : A -> M B) :
  keeps_osc m -> (forall a, keeps_osc (k a)) -> keeps_osc (bind m k).
Proof.
  intros Hm Hk s r s' H; unfold bind in H.
  destruct (m s) as [[a|e] s1] eqn:E.
  - destruct (Hm s _ s1 E) as [Ho1 [l1 Hl1]].
    destruct (Hk a s1 r s' H) as [Ho2 [l2 Hl2]].
    split; [congruence|]. exists (l1 ++ l2)%list; rewrite Hl2, Hl1, app_assoc; reflexivity.
  - injection H as <- <-; exact (Hm s _ s1 E).
Qed.

Lemma ret_keeps {A} (a : A) : keeps_osc (ret a).
Proof. intros s r s' H; injection H as <- <-; split; [reflexivity|exists []; symmetry; apply app_nil_r]. Qed.

Lemma raise_keeps {A} e : keeps_osc (A := A) (raise e).
Proof. intros s r s' H; injection H as <- <-; split; [reflexivity|exists []; symmetry; apply app_nil_r]. Qed.

Lemma lift_keeps {A} (r : result A) : keeps_osc (lift r).
Proof. destruct r; [apply ret_keeps | apply raise_keeps]. Qed.

Lemma get_inst_keeps : keeps_osc get_inst.
Proof. intros s r s' H; injection H as <- <-; split; [reflexivity|exists []; symmetry; apply app_nil_r]. Qed.

Lemma send_keeps tr e : keeps_osc (send tr e).
Proof.
  intros s r s' H; unfold send in H.
  destruct (tr (sent s) e); injection H as <- <-; split; try reflexivity; eexists; reflexivity.
Qed.

Create HintDb keeps.
#[local] Hint Resolve bind_keeps ret_keeps raise_keeps lift_keeps get_inst_keeps send_keeps
  : keeps.

Lemma inst_write_keeps tr c : keeps_osc (inst_write tr c).
Proof. unfold inst_write; apply bind_keeps; [auto with keeps|]; intros [|]; auto with keeps. Qed.

Lemma inst_query_keeps tr c : keeps_osc (inst_query tr c).
Proof.
  unfold inst_query; apply bind_keeps; [auto with keeps|]; intros [|]; [|auto with keeps].
  apply bind_keeps; [auto with keeps|]; intros []; auto with keeps.
Qed.

Lemma inst_query_binary_keeps tr c : keeps_osc (inst_query_binary tr c).
Proof.
  unfold inst_query_binary; apply bind_keeps; [auto with keeps|]; intros [|]; [|auto with keeps].
  apply bind_keeps; [auto with keeps|]; intros []; auto with keeps.
Qed.

#[local] Hint Resolve inst_write_keeps inst_query_keeps inst_query_binary_keeps : keeps.

Lemma set_trigger_keeps tr repr mode source slope level :
  keeps_osc (set_trigger tr repr mode source slope level).
Proof.
  unfold set_trigger; do 3 (apply bind_keeps; [auto with keeps | intros]); auto with keeps.
Qed.

Lemma get_waveform_keeps tr pf channel : keeps_osc (get_waveform tr pf channel).
Proof.
  unfold get_waveform; apply bind_keeps; [auto with keeps|]; intros [|]; [|auto with keeps].
  do 11 (apply bind_keeps; [auto with keeps | intros]); auto with keeps.
Qed.

(** Extra: [set_channel], [set_timebase], [set_voltage_scale], [set_trigger]
    and [get_waveform] never change the object's attributes ([resource_name]
    and [inst]) and only add calls to the transport, on every outcome,
    success or exception. *)
Theorem methods_keep_object tr pf repr :
  (forall channel, keeps_osc (set_channel tr channel)) /\
  (forall t, keeps_osc (set_timebase tr repr t)) /\
  (forall channel v, keeps_osc (set_voltage_scale tr repr channel v)) /\
  (forall mode source slope level, keeps_osc (set_trigger tr repr mode source slope level)) /\
  (forall channel, keeps_osc (get_waveform tr pf channel)).
Proof.
  split; [|split; [|split; [|split]]]; intros;
    unfold set_channel, set_timebase, set_voltage_scale;
    auto using set_trigger_keeps, get_waveform_keeps with keeps.
Qed.

Lemma inst_write_connected tr c s r :
  inst (osc s) = Some r ->
  inst_write tr c s =
  (match tr (sent s) (IWrite c) with Some _ => Ok tt | None => Err VisaIOError end,
   log_call s (IWrite c)).
Proof.
  intros H; unfold inst_write, bind, get_inst, send, ret; rewrite H.
  destruct (tr (sent s) (IWrite c)); reflexivity.
Qed.

(** Extra: on a connected object, each of [set_channel], [set_timebase] and
    [set_voltage_scale] makes exactly one call, the write of its command,
    which is on the transport even when pyvisa raises; it returns normally
    if the instrument accepts the write and raises VisaIOError otherwise. *)
Theorem setters_single_write tr repr s r :
  inst (osc s) = Some r ->
  (forall channel, set_channel tr channel s =
     let c := ":WAV:SOUR CHAN" ++ py_str_Z channel in
     (match tr (sent s) (IWrite c) with Some _ => Ok tt | None => Err VisaIOError end,
      log_call s (IWrite c))) /\
  (forall t, set_timebase tr repr t s =
     let c := ":TIM:SCAL " ++ repr t in
     (match tr (sent s) (IWrite c) with Some _ => Ok tt | None => Err VisaIOError end,
      log_call s (IWrite c))) /\
  (forall channel v, set_voltage_scale tr repr channel v s =
     let c := ":CHAN" ++ py_str_Z channel ++ ":SCAL " ++ repr v in
     (match tr (sent s) (IWrite c) with Some _ => Ok tt | None => Err VisaIOError end,
      log_call s (IWrite c))).
Proof.
  intros H; repeat split; intros; apply (inst_write_connected _ _ _ _ H).
Qed.

Lemma setters_single_write_witness :
  set_channel (Demo.failing (fun _ => true) (Demo.scope Demo.idn Demo.preamble_ok Demo.samples "1" "1"))
    2 Demo.connected
  = (Err VisaIOError, log_call Demo.connected (IWrite ":WAV:SOUR CHAN2")).
Proof.
  exact (proj1 (setters_single_write
                  (Demo.failing (fun _ => true)
                     (Demo.scope Demo.idn Demo.preamble_ok Demo.samples "1" "1"))
                  Demo.py_float_repr Demo.connected
                  {| resource_of := resource_name (osc Demo.fresh) |} eq_refl) 2).
Defined.

(** Rewrites the first write of [H] on a connected object. *)
Ltac write_step H Hi := erewrite inst_write_connected in H by exact Hi.

(** Runs the writes of [H] on a connected object, one case per answer. *)
Ltac write_steps H Hi :=
  unfold bind in H; cbv beta in H;
  repeat (write_step H Hi;
          match type of H with
          | context [match ?t ?p (IWrite ?c) with _ => _ end] =>
              let E := fresh "E" in destruct (t p (IWrite c)) eqn:E
          end; cbv beta iota in H).

(** Closes a case of [write_steps]: every write accepted, or the [k]-th
    rejected. *)
Ltac prefix_at E k :=
  exists k; cbn [firstn nth log_call sent osc]; rewrite <- ?app_assoc; cbn [app];
  rewrite ?app_nil_r; cbn [log_call sent] in E; rewrite <- ?app_assoc in E; cbn [app] in E;
  repeat split; [lia | exact E].

Ltac prefix_close H :=
  injection H as <- <-; split; [reflexivity|];
  first
    [ left; split; [reflexivity|]; cbn [log_call sent osc]; rewrite <- !app_assoc; reflexivity
    | right; match goal with
             | E : _ _ (IWrite _) = None |- _ =>
                 first [ prefix_at E 0%nat | prefix_at E 1%nat | prefix_at E 2%nat
                       | prefix_at E 3%nat | prefix_at E 4%nat | prefix_at E 5%nat
                       | prefix_at E 6%nat ]
             end ].

(** Extra: [set_trigger] on a connected object is not atomic: it either
    sends its four writes (mode, source, slope, level) in this order and
    returns, or the [k]-th write is rejected: the writes before it were
    accepted and stay applied, the rejected one is the last call made,
    nothing after it is sent, and VisaIOError propagates. *)
Theorem set_trigger_prefix tr repr mode source slope level s r res s' :
  inst (osc s) = Some r ->
  set_trigger tr repr mode source slope level s = (res, s') ->
  let cmds := [IWrite (":TRIG:MODE " ++ mode);
               IWrite (":TRIG:EDGE:SOUR CHAN" ++ py_str_Z source);
               IWrite (":TRIG:EDGE:SLOP " ++ slope);
               IWrite (":TRIG:LEV CHAN" ++ py_str_Z source ++ "," ++ repr level)] in
  osc s' = osc s /\
  ((res = Ok tt /\ sent s' = (sent s ++ cmds)%list) \/
   (exists k, (k < 4)%nat /\ res = Err VisaIOError /\
      sent s' = (sent s ++ firstn (S k) cmds)%list /\
      tr (sent s ++ firstn k cmds)%list (nth k cmds IClose) = None)).
Proof.
  intros Hi H; cbv zeta; unfold set_trigger in H.
  write_steps H Hi; prefix_close H.
Qed.

Lemma set_trigger_prefix_witness :
  osc (snd (set_trigger
              (Demo.failing (fun e => match e with
                                      | IWrite c => String.prefix ":TRIG:EDGE:SLOP" c
                                      | _ => false end)
                 (Demo.scope Demo.idn Demo.preamble_ok Demo.samples "1" "1"))
              Demo.py_float_repr "EDGE" 1 "POS" 1.5%float Demo.connected))
  = osc Demo.connected.
Proof.
  exact (proj1 (set_trigger_prefix
    (Demo.failing (fun e => match e with
                            | IWrite c => String.prefix ":TRIG:EDGE:SLOP" c
                            | _ => false end)
       (Demo.scope Demo.idn Demo.preamble_ok Demo.samples "1" "1"))
    Demo.py_float_repr "EDGE" 1 "POS" 1.5%float Demo.connected
    {| resource_of := resource_name (osc Demo.fresh) |} _ _ eq_refl
    (surjective_pairing _))).
Defined.

(** ** What [get_waveform] reads from the preamble *)

Lemma bind_congr {A B} (m1 m2 : M A) (k1 k2 : A -> M B) s :
  m1 s = m2 s -> (forall a s', k1 a s' = k2 a s') -> bind m1 k1 s = bind m2 k2 s.
Proof.
  unfold bind; intros -> Hk; destruct (m2 s) as [[a|e] s']; auto.
Qed.

Lemma bind_lift_ok {A B} (a : A) (k : A -> M B) s : bind (lift (Ok a)) k s = k a s.
Proof. reflexivity. Qed.

Lemma inst_query_other pre tr c s :
  String.eqb c ":WAV:PRE?" = false ->
  inst_query (answer_preamble pre tr) c s = inst_query tr c s.
Proof.
  intros H; unfold inst_query, bind, get_inst, send, answer_preamble; rewrite H; reflexivity.
Qed.

Lemma query_preamble_answer {B} pre tr (k : string -> M B) s :
  bind (inst_query (answer_preamble pre tr) ":WAV:PRE?") k s =
  match inst (osc s) with
  | None => (Err AttributeError, s)
  | Some _ => k pre (log_call s (IQuery ":WAV:PRE?"))
  end.
Proof.
  unfold inst_query, bind, get_inst, send, answer_preamble, ret; cbn.
  destruct (inst (osc s)); reflexivity.
Qed.

(** Extra: [get_waveform] uses only three of the preamble's fields: two
    instruments that differ only in their preamble, both readable, with the
    same [x_increment], [x_origin] and [x_reference], give the same run
    (the same result, the same calls, the same object), whatever
    the format, type, point count, average count and [y_*] fields. *)
Theorem get_waveform_preamble_fields tr pf channel pre1 pre2 p1 p2 s :
  parse_preamble pf pre1 = Ok p1 -> parse_preamble pf pre2 = Ok p2 ->
  x_increment p1 = x_increment p2 -> x_origin p1 = x_origin p2 ->
  x_reference p1 = x_reference p2 ->
  get_waveform (answer_preamble pre1 tr) pf channel s =
  get_waveform (answer_preamble pre2 tr) pf channel s.
Proof.
  intros H1 H2 Hxi Hxo Hxr; unfold get_waveform.
  apply bind_congr; [reflexivity|]; intros [|] s1; [|reflexivity].
  do 3 (apply bind_congr; [reflexivity|]; intros ? ?).
  apply bind_congr; [rewrite !inst_query_other by reflexivity; reflexivity|]; intros ? s2.
  rewrite !query_preamble_answer; destruct (inst (osc s2)); [|reflexivity].
  rewrite H1, H2, !bind_lift_ok.
  apply bind_congr; [reflexivity|]; intros ? ?.
  apply bind_congr; [rewrite !inst_query_other by reflexivity; reflexivity|]; intros ? ?.
  apply bind_congr; [reflexivity|]; intros ? ?.
  apply bind_congr; [rewrite !inst_query_other by reflexivity; reflexivity|]; intros ? ?.
  apply bind_congr; [reflexivity|]; intros ? ?.
  rewrite Hxi, Hxo, Hxr; reflexivity.
Qed.

Lemma get_waveform_preamble_fields_witness :
  get_waveform (answer_preamble Demo.preamble_ok
                  (Demo.scope Demo.idn Demo.preamble_ok Demo.samples "1" "1"))
    Demo.py_float_of_string 1 Demo.connected =
  get_waveform (answer_preamble "9,9,9,9,1e-06,0,0,2.7,0.5,2.7"
                  (Demo.scope Demo.idn Demo.preamble_ok Demo.samples "1" "1"))
    Demo.py_float_of_string 1 Demo.connected.
Proof.
  eapply get_waveform_preamble_fields; [vm_compute; reflexivity | vm_compute; reflexivity | ..];
    vm_compute; reflexivity.
Defined.

(** ** [MainWindow.apply_settings] *)

Lemma settings_chain_prefix tr repr channel t v mode source slope level s r res s' :
  inst (osc s) = Some r ->
  (set_channel tr channel;;; set_timebase tr repr t;;;
   set_voltage_scale tr repr channel v;;; set_trigger tr repr mode source slope level) s
    = (res, s') ->
  let cmds := [IWrite (":WAV:SOUR CHAN" ++ py_str_Z channel);
               IWrite (":TIM:SCAL " ++ repr t);
               IWrite (":CHAN" ++ py_str_Z channel ++ ":SCAL " ++ repr v);
               IWrite (":TRIG:MODE " ++ mode);
               IWrite (":TRIG:EDGE:SOUR CHAN" ++ py_str_Z source);
               IWrite (":TRIG:EDGE:SLOP " ++ slope);
               IWrite (":TRIG:LEV CHAN" ++ py_str_Z source ++ "," ++ repr level)] in
  osc s' = osc s /\
  ((res = Ok tt /\ sent s' = (sent s ++ cmds)%list) \/
   (exists k, (k < 7)%nat /\ res = Err VisaIOError /\
      sent s' = (sent s ++ firstn (S k) cmds)%list /\
      tr (sent s ++ firstn k cmds)%list (nth k cmds IClose) = None)).
Proof.
  intros Hi H; cbv zeta.
  unfold set_channel, set_timebase, set_voltage_scale, set_trigger in H.
  write_steps H Hi; prefix_close H.
Qed.

Lemma window_eta v : with_oscilloscope (oscilloscope v) v = v.
Proof. destruct v; reflexivity. Qed.

Lemma apply_settings_connected_eq tr repr f w o channel source :
  oscilloscope (win w) = Some o ->
  py_int_of_string (channel_text f) = Some channel ->
  py_int_of_string (trigger_source_text f) = Some source ->
  MainWindow.apply_settings tr repr f w =
  match (set_channel tr channel;;; set_timebase tr repr (timebase_value f);;;
         set_voltage_scale tr repr channel (voltage_value f);;;
         set_trigger tr repr (trigger_mode_text f) source
           (if String.eqb (py_upper (trigger_slope_text f)) "POSITIVE" then "POS" else "NEG")
           (trigger_level_value f))
          {| osc := o; sent := wsent w |} with
  | (Ok _, s') => (Ok tt, {| win := with_oscilloscope (Some (osc s')) (win w); wsent := sent s' |})
  | (Err e, s') =>
      (Ok tt, {| win := with_dialog (Critical "Error" e)
                          (with_oscilloscope (Some (osc s')) (win w));
                 wsent := sent s' |})
  end.
Proof.
  intros Ho Hc Hs.
  unfold MainWindow.apply_settings, wbind, get_oscilloscope; rewrite Ho.
  unfold wlift, py_int; rewrite Hc, Hs.
  unfold try_except, MainWindow.run_osc at 1, bind at 1; rewrite Ho.
  destruct (set_channel tr channel _) as [[[]|e] [o1 l1]]; [|reflexivity].
  unfold MainWindow.run_osc at 1, bind at 1; cbn [oscilloscope win with_oscilloscope wsent].
  destruct (set_timebase tr repr _ _) as [[[]|e] [o2 l2]]; [|reflexivity].
  unfold MainWindow.run_osc at 1, bind at 1; cbn [oscilloscope win with_oscilloscope wsent].
  destruct (set_voltage_scale tr repr _ _ _) as [[[]|e] [o3 l3]]; [|reflexivity].
  unfold MainWindow.run_osc; cbn [oscilloscope win with_oscilloscope wsent].
  destruct (set_trigger tr repr _ _ _ _ _) as [[[]|e] [o4 l4]]; reflexivity.
Qed.

(** Extra: [MainWindow.apply_settings] on a connected instrument, with
    channel and trigger source texts that [int()] accepts, makes the seven
    writes of [set_channel], [set_timebase], [set_voltage_scale] (on the
    same channel) and [set_trigger], with slope [POS] exactly when the
    upper-cased slope text is [POSITIVE] and [NEG] otherwise. Either all of
    them are accepted and the window is left as it was, or the [k]-th is
    rejected: the earlier writes stay applied, nothing after it is sent, and
    the only change to the window is one "Error" message box; the slot
    itself returns normally. *)
Theorem apply_settings_connected tr repr f w o r channel source res w' :
  oscilloscope (win w) = Some o -> inst o = Some r ->
  py_int_of_string (channel_text f) = Some channel ->
  py_int_of_string (trigger_source_text f) = Some source ->
  MainWindow.apply_settings tr repr f w = (res, w') ->
  let slope :=
    if String.eqb (py_upper (trigger_slope_text f)) "POSITIVE" then "POS" else "NEG" in
  let cmds := [IWrite (":WAV:SOUR CHAN" ++ py_str_Z channel);
               IWrite (":TIM:SCAL " ++ repr (timebase_value f));
               IWrite (":CHAN" ++ py_str_Z channel ++ ":SCAL " ++ repr (voltage_value f));
               IWrite (":TRIG:MODE " ++ trigger_mode_text f);
               IWrite (":TRIG:EDGE:SOUR CHAN" ++ py_str_Z source);
               IWrite (":TRIG:EDGE:SLOP " ++ slope);
               IWrite (":TRIG:LEV CHAN" ++ py_str_Z source ++ ","
                         ++ repr (trigger_level_value f))] in
  res = Ok tt /\
  ((wsent w' = (wsent w ++ cmds)%list /\ win w' = win w) \/
   (exists k, (k < 7)%nat /\
      wsent w' = (wsent w ++ firstn (S k) cmds)%list /\
      tr (wsent w ++ firstn k cmds)%list (nth k cmds IClose) = None /\
      win w' = with_dialog (Critical "Error" VisaIOError) (win w))).
Proof.
  intros Ho Hi Hc Hs H slope cmds.
  rewrite (apply_settings_connected_eq tr repr f w o channel source Ho Hc Hs) in H.
  match type of H with
  | context [match ?X with (_, _) => _ end] => destruct X as [res1 s1] eqn:E
  end.
  destruct (settings_chain_prefix tr repr channel (timebase_value f) (voltage_value f)
                (trigger_mode_text f) source _ (trigger_level_value f)
                {| osc := o; sent := wsent w |} r res1 s1 Hi E)
    as [Hos [[-> Hsent] | (k & Hk & -> & Hsent & Hrej)]];
    cbn [osc sent] in Hos, Hsent; injection H as <- <-; (split; [reflexivity|]).
  - left; cbn [wsent win]; rewrite Hos, <- Ho, window_eta; split; [exact Hsent | reflexivity].
  - right; exists k; cbn [wsent win]; rewrite Hos, <- Ho, window_eta.
    repeat split; assumption.
Qed.

Lemma apply_settings_connected_witness :
  fst (MainWindow.apply_settings
         (Demo.scope Demo.idn Demo.preamble_ok Demo.samples "1" "1") Demo.py_float_repr
         MainWindow.default_form
         (snd (MainWindow.connect_oscilloscope
                 (Demo.scope Demo.idn Demo.preamble_ok Demo.samples "1" "1")
                 Demo.py_float_repr MainWindow.default_form
                 {| win := MainWindow.initial; wsent := [] |}))) = Ok tt.
Proof.
  refine (proj1 (apply_settings_connected
    (Demo.scope Demo.idn Demo.preamble_ok Demo.samples "1" "1") Demo.py_float_repr
    MainWindow.default_form _ _ {| resource_of := resource_text MainWindow.default_form |}
    1 1 _ _ _ _ _ _ (surjective_pairing _)));
    vm_compute; reflexivity.
Defined.

(** ** The slots' message boxes *)

Lemma try_show_ok (m : WM unit) title w :
  fst (try_except m (fun e => MainWindow.show (Critical title e)) w) = Ok tt.
Proof. unfold try_except; destruct (m w) as [[[]|e] w']; reflexivity. Qed.

Lemma try_except_ok {A} (m : WM A) h w a w' :
  m w = (Ok a, w') -> try_except m h w = (Ok a, w').
Proof. unfold try_except; intros ->; reflexivity. Qed.

Lemma apply_settings_ok tr repr f w : fst (MainWindow.apply_settings tr repr f w) = Ok tt.
Proof.
  unfold MainWindow.apply_settings, wbind, get_oscilloscope.
  destruct (oscilloscope (win w)); [apply try_show_ok | reflexivity].
Qed.

(** Extra: the slots [apply_settings], [connect_oscilloscope] and
    [get_waveform] of [MainWindow] never let an exception out, whatever the
    window, the widgets and the instrument: every failure becomes a message
    box. *)
Theorem slots_never_raise tr pf repr f w :
  fst (MainWindow.apply_settings tr repr f w) = Ok tt /\
  fst (MainWindow.connect_oscilloscope tr repr f w) = Ok tt /\
  fst (MainWindow.get_waveform tr pf f w) = Ok tt.
Proof.
  split; [|split].
  - apply apply_settings_ok.
  - apply try_show_ok.
  - unfold MainWindow.get_waveform, wbind, get_oscilloscope.
    destruct (oscilloscope (win w)); [apply try_show_ok | reflexivity].
Qed.

(** Extra: with no oscilloscope object, [apply_settings] and [get_waveform]
    only show the "Oscilloscope not connected." warning and make no call,
    and [disconnect_oscilloscope] does nothing at all. *)
Theorem slots_without_oscilloscope tr pf repr f w :
  oscilloscope (win w) = None ->
  MainWindow.apply_settings tr repr f w =
    (Ok tt, upd_win (with_dialog (Warning "Warning" "Oscilloscope not connected.")) w) /\
  MainWindow.get_waveform tr pf f w =
    (Ok tt, upd_win (with_dialog (Warning "Warning" "Oscilloscope not connected.")) w) /\
  MainWindow.disconnect_oscilloscope tr w = (Ok tt, w).
Proof.
  intros H; unfold MainWindow.apply_settings, MainWindow.get_waveform,
    MainWindow.disconnect_oscilloscope, wbind, get_oscilloscope; rewrite H.
  repeat split.
Qed.

Lemma slots_without_oscilloscope_witness :
  MainWindow.disconnect_oscilloscope (Demo.scope Demo.idn Demo.preamble_ok Demo.samples "1" "1")
    {| win := MainWindow.initial; wsent := [] |}
  = (Ok tt, {| win := MainWindow.initial; wsent := [] |}).
Proof.
  exact (proj2 (proj2 (slots_without_oscilloscope
    (Demo.scope Demo.idn Demo.preamble_ok Demo.samples "1" "1") Demo.py_float_of_string
    Demo.py_float_repr MainWindow.default_form {| win := MainWindow.initial; wsent := [] |}
    eq_refl))).
Defined.

(** Extra: when [int()] rejects the channel or the trigger source text,
    [apply_settings] makes no call and shows one "Error" box with the
    ValueError; [get_waveform] does the same when it rejects the channel
    text. *)
Theorem slots_bad_number_text tr pf repr f w o :
  oscilloscope (win w) = Some o ->
  (py_int_of_string (channel_text f) = None \/
   py_int_of_string (trigger_source_text f) = None ->
   MainWindow.apply_settings tr repr f w =
     (Ok tt, upd_win (with_dialog (Critical "Error" ValueError)) w)) /\
  (py_int_of_string (channel_text f) = None ->
   MainWindow.get_waveform tr pf f w =
     (Ok tt, upd_win (with_dialog (Critical "Error" ValueError)) w)).
Proof.
  intros Ho; split.
  - intros [H|H]; unfold MainWindow.apply_settings, wbind, get_oscilloscope, try_except,
      wlift, py_int; rewrite Ho; [rewrite H; reflexivity|].
    destruct (py_int_of_string (channel_text f)); [rewrite H|]; reflexivity.
  - intros H; unfold MainWindow.get_waveform, wbind, get_oscilloscope, try_except,
      wlift, py_int; rewrite Ho, H; reflexivity.
Qed.

Lemma slots_bad_number_text_witness :
  let w := snd (MainWindow.connect_oscilloscope
                  (Demo.scope Demo.idn Demo.preamble_ok Demo.samples "1" "1")
                  Demo.py_float_repr MainWindow.default_form
                  {| win := MainWindow.initial; wsent := [] |}) in
  let f := {| resource_text := resource_text MainWindow.default_form;
              channel_text := "CH1"; timebase_value := 200e-6%float;
              voltage_value := 1%float; trigger_mode_text := "EDGE";
              trigger_source_text := "1"; trigger_slope_text := "Positive";
              trigger_level_value := 1.5%float |} in
  MainWindow.get_waveform (Demo.scope Demo.idn Demo.preamble_ok Demo.samples "1" "1")
    Demo.py_float_of_string f w
  = (Ok tt, upd_win (with_dialog (Critical "Error" ValueError)) w).
Proof.
  intros w f.
  refine (proj2 (slots_bad_number_text
    (Demo.scope Demo.idn Demo.preamble_ok Demo.samples "1" "1") Demo.py_float_of_string
    Demo.py_float_repr f w _ _) _); vm_compute; reflexivity.
Defined.

(** ** [MainWindow.connect_oscilloscope] *)

(** Extra: when the instrument cannot be opened, or answers [*IDN?] with
    an error, [connect_oscilloscope] shows one "Connection Error" box and
    leaves the status text and the buttons as they were; yet
    [self.oscilloscope] already holds the new object: unopened, or opened
    and left open when [*IDN?] fails. *)
Theorem connect_oscilloscope_failure tr repr f w :
  let name := resource_text f in
  (tr (wsent w) (IOpen name) = None ->
   MainWindow.connect_oscilloscope tr repr f w =
   (Ok tt, {| win := with_dialog (Critical "Connection Error" VisaIOError)
                       (with_oscilloscope (Some {| resource_name := name; inst := None |})
                          (win w));
              wsent := (wsent w ++ [IOpen name])%list |})) /\
  (forall rep, tr (wsent w) (IOpen name) = Some rep ->
   (forall a, tr (wsent w ++ [IOpen name])%list (IQuery "*IDN?") <> Some (RStr a)) ->
   MainWindow.connect_oscilloscope tr repr f w =
   (Ok tt, {| win := with_dialog (Critical "Connection Error" VisaIOError)
                       (with_oscilloscope
                          (Some {| resource_name := name;
                                   inst := Some {| resource_of := name |} |})
                          (win w));
              wsent := (wsent w ++ [IOpen name; IQuery "*IDN?"])%list |})).
Proof.
  intros name; split.
  - intros H; unfold MainWindow.connect_oscilloscope, try_except, wbind, modify,
      MainWindow.run_osc; cbn [upd_win win wsent oscilloscope with_oscilloscope].
    rewrite connect_eq; cbn [osc sent resource_name]; fold name; rewrite H; reflexivity.
  - intros rep H1 H2; unfold MainWindow.connect_oscilloscope, try_except, wbind, modify,
      MainWindow.run_osc; cbn [upd_win win wsent oscilloscope with_oscilloscope].
    rewrite connect_eq; cbn [osc sent resource_name]; fold name; rewrite H1.
    cbn [with_inst log_call sent osc resource_name].
    destruct (tr _ (IQuery "*IDN?")) as [[|a|]|] eqn:E;
      [| exfalso; exact (H2 a eq_refl) | ..];
      unfold MainWindow.show, modify, upd_win, log_call, with_inst; cbn [sent osc];
      rewrite <- app_assoc; reflexivity.
Qed.

Lemma connect_oscilloscope_failure_witness :
  MainWindow.connect_oscilloscope
    (Demo.failing Demo.is_idn_query (Demo.scope Demo.idn Demo.preamble_ok Demo.samples "1" "1"))
    Demo.py_float_repr MainWindow.default_form {| win := MainWindow.initial; wsent := [] |}
  = (Ok tt, {| win := with_dialog (Critical "Connection Error" VisaIOError)
                        (with_oscilloscope
                           (Some {| resource_name := resource_text MainWindow.default_form;
                                    inst := Some {| resource_of :=
                                                      resource_text MainWindow.default_form |} |})
                           MainWindow.initial);
               wsent := [IOpen (resource_text MainWindow.default_form); IQuery "*IDN?"] |}).
Proof.
  refine (proj2 (connect_oscilloscope_failure
    (Demo.failing Demo.is_idn_query (Demo.scope Demo.idn Demo.preamble_ok Demo.samples "1" "1"))
    Demo.py_float_repr MainWindow.default_form {| win := MainWindow.initial; wsent := [] |})
    RNone eq_refl _).
  intros a; vm_compute; discriminate.
Defined.

(** Extra: when the instrument opens and answers [*IDN?],
    [connect_oscilloscope] is [apply_settings] run on the window whose
    [self.oscilloscope] is the new, opened object, whose status reads
    "Status: Connected to " followed by the resource name and whose four
    buttons are enabled; so a failing setting shows an "Error" box, not a
    "Connection Error" one, and the window still reads as connected. *)
Theorem connect_oscilloscope_success tr repr f w rep idn :
  let name := resource_text f in
  tr (wsent w) (IOpen name) = Some rep ->
  tr (wsent w ++ [IOpen name])%list (IQuery "*IDN?") = Some (RStr idn) ->
  MainWindow.connect_oscilloscope tr repr f w =
  MainWindow.apply_settings tr repr f
    {| win := with_buttons {| disconnect_on := true; apply_on := true;
                              get_data_on := true; color_on := true |}
                (with_status ("Status: Connected to " ++ name)
                   (with_oscilloscope
                      (Some {| resource_name := name; inst := Some {| resource_of := name |} |})
                      (win w)));
       wsent := (wsent w ++ [IOpen name; IQuery "*IDN?"])%list |}.
Proof.
  intros name H1 H2.
  unfold MainWindow.connect_oscilloscope.
  destruct (MainWindow.apply_settings tr repr f _) as [res w'] eqn:E.
  pose proof (apply_settings_ok tr repr f
    {| win := with_buttons {| disconnect_on := true; apply_on := true;
                              get_data_on := true; color_on := true |}
                (with_status ("Status: Connected to " ++ name)
                   (with_oscilloscope
                      (Some {| resource_name := name; inst := Some {| resource_of := name |} |})
                      (win w)));
       wsent := (wsent w ++ [IOpen name; IQuery "*IDN?"])%list |}) as Hr.
  rewrite E in Hr; cbn in Hr; subst res.
  apply try_except_ok.
  unfold wbind, modify, MainWindow.run_osc; cbn [upd_win win wsent oscilloscope with_oscilloscope].
  rewrite connect_eq; cbn [osc sent resource_name]; fold name; rewrite H1.
  cbn [with_inst log_call sent osc resource_name]; rewrite H2.
  unfold upd_win, log_call, with_inst; cbn [sent osc win wsent]; rewrite <- app_assoc.
  exact E.
Qed.

Lemma connect_oscilloscope_success_witness :
  MainWindow.connect_oscilloscope (Demo.scope Demo.idn Demo.preamble_ok Demo.samples "1" "1")
    Demo.py_float_repr MainWindow.default_form {| win := MainWindow.initial; wsent := [] |} =
  MainWindow.apply_settings (Demo.scope Demo.idn Demo.preamble_ok Demo.samples "1" "1")
    Demo.py_float_repr MainWindow.default_form
    {| win := with_buttons {| disconnect_on := true; apply_on := true;
                              get_data_on := true; color_on := true |}
                (with_status ("Status: Connected to " ++ resource_text MainWindow.default_form)
                   (with_oscilloscope
                      (Some {| resource_name := resource_text MainWindow.default_form;
                               inst := Some {| resource_of :=
                                                 resource_text MainWindow.default_form |} |})
                      MainWindow.initial));
       wsent := [IOpen (resource_text MainWindow.default_form); IQuery "*IDN?"] |}.
Proof.
  exact (connect_oscilloscope_success (Demo.scope Demo.idn Demo.preamble_ok Demo.samples "1" "1")
    Demo.py_float_repr MainWindow.default_form {| win := MainWindow.initial; wsent := [] |}
    RNone Demo.idn eq_refl eq_refl).
Defined.

(** ** An oscilloscope object that was never opened *)

(** Extra: after a failed open, [self.oscilloscope] is an object whose
    [inst] is None; the slots then do not show the "not connected" warning:
    [apply_settings] shows an "Error" box with AttributeError and
    [get_waveform] one with the class's not-connected exception, neither
    making a call, while [disconnect_oscilloscope] makes no call, drops the
    object and sets the status to "Status: Disconnected". *)
Theorem slots_unopened_object tr pf repr f w o channel :
  oscilloscope (win w) = Some o -> inst o = None ->
  py_int_of_string (channel_text f) = Some channel ->
  (forall source, py_int_of_string (trigger_source_text f) = Some source ->
   MainWindow.apply_settings tr repr f w =
     (Ok tt, upd_win (with_dialog (Critical "Error" AttributeError)) w)) /\
  MainWindow.get_waveform tr pf f w =
    (Ok tt, upd_win (with_dialog (Critical "Error" NotConnected)) w) /\
  MainWindow.disconnect_oscilloscope tr w =
    (Ok tt, upd_win (fun v => with_status "Status: Disconnected" (with_oscilloscope None v)) w).
Proof.
  intros Ho Hi Hc; split; [|split].
  - intros source Hs; rewrite (apply_settings_connected_eq tr repr f w o channel source Ho Hc Hs).
    unfold bind at 1, set_channel; cbv beta; rewrite inst_write_disconnected by exact Hi.
    cbn [osc sent]; rewrite <- Ho, window_eta; reflexivity.
  - unfold MainWindow.get_waveform, wbind, get_oscilloscope, try_except, wlift, py_int,
      MainWindow.run_osc; rewrite Ho, Hc; cbn [win]; rewrite Ho.
    unfold get_waveform, bind at 1, get_inst; cbn [osc]; rewrite Hi; cbn.
    rewrite <- Ho, window_eta; reflexivity.
  - unfold MainWindow.disconnect_oscilloscope, wbind, get_oscilloscope, MainWindow.run_osc;
      rewrite Ho; cbn [win]; rewrite Ho, disconnect_eq; cbn [osc]; rewrite Hi; reflexivity.
Qed.

Lemma slots_unopened_object_witness :
  let dev := Demo.failing (fun e => match e with IOpen _ => true | _ => false end)
               (Demo.scope Demo.idn Demo.preamble_ok Demo.samples "1" "1") in
  let w := snd (MainWindow.connect_oscilloscope dev Demo.py_float_repr MainWindow.default_form
                  {| win := MainWindow.initial; wsent := [] |}) in
  MainWindow.get_waveform dev Demo.py_float_of_string MainWindow.default_form w =
    (Ok tt, upd_win (with_dialog (Critical "Error" NotConnected)) w).
Proof.
  intros dev w.
  refine (proj1 (proj2 (slots_unopened_object dev Demo.py_float_of_string Demo.py_float_repr
    MainWindow.default_form w _ 1 _ _ _))); vm_compute; reflexivity.
Defined.

(** ** [MainWindow.disconnect_oscilloscope] *)

(** Extra: on an opened oscilloscope, [disconnect_oscilloscope] closes the
    resource; if [close()] succeeds, [self.oscilloscope] becomes None and
    the status reads "Status: Disconnected", but the four buttons keep
    their state (they stay enabled); if [close()] raises, the exception
    leaves the slot (there is no [try]) and the window is left as it was,
    the object still holding its open resource. *)
Theorem disconnect_oscilloscope_opened tr w o r :
  oscilloscope (win w) = Some o -> inst o = Some r ->
  (forall rep, tr (wsent w) IClose = Some rep ->
   MainWindow.disconnect_oscilloscope tr w =
   (Ok tt, {| win := with_status "Status: Disconnected" (with_oscilloscope None (win w));
              wsent := (wsent w ++ [IClose])%list |})) /\
  (tr (wsent w) IClose = None ->
   MainWindow.disconnect_oscilloscope tr w =
   (Err VisaIOError, {| win := win w; wsent := (wsent w ++ [IClose])%list |})).
Proof.
  intros Ho Hi; unfold MainWindow.disconnect_oscilloscope, wbind, get_oscilloscope,
    MainWindow.run_osc; rewrite Ho; cbn [win]; rewrite Ho, disconnect_eq; cbn [osc sent];
    rewrite Hi; split.
  - intros rep Hc; rewrite Hc; reflexivity.
  - intros Hc; rewrite Hc; cbn; rewrite <- Ho, window_eta; reflexivity.
Qed.

Lemma disconnect_oscilloscope_opened_witness :
  let w := snd (MainWindow.connect_oscilloscope
                  (Demo.scope Demo.idn Demo.preamble_ok Demo.samples "1" "1")
                  Demo.py_float_repr MainWindow.default_form
                  {| win := MainWindow.initial; wsent := [] |}) in
  MainWindow.disconnect_oscilloscope
    (Demo.failing Demo.is_close (Demo.scope Demo.idn Demo.preamble_ok Demo.samples "1" "1")) w
  = (Err VisaIOError, {| win := win w; wsent := (wsent w ++ [IClose])%list |}).
Proof.
  intros w.
  refine (proj2 (disconnect_oscilloscope_opened
    (Demo.failing Demo.is_close (Demo.scope Demo.idn Demo.preamble_ok Demo.samples "1" "1"))
    w _ {| resource_of := resource_text MainWindow.default_form |} _ _) _);
    vm_compute; reflexivity.
Defined.

(** ** [MainWindow.get_waveform] and [MainWindow.plot_waveform] *)

Lemma get_waveform_slot_eq tr pf f w o channel :
  oscilloscope (win w) = Some o ->
  py_int_of_string (channel_text f) = Some channel ->
  MainWindow.get_waveform tr pf f w =
  match get_waveform tr pf channel {| osc := o; sent := wsent w |} with
  | (Ok tv, s') =>
      (Ok tt, {| win := with_plot (fst tv) (snd tv)
                          (with_waveform (fst tv) (snd tv)
                             (with_oscilloscope (Some (osc s')) (win w)));
                 wsent := sent s' |})
  | (Err e, s') =>
      (Ok tt, {| win := with_dialog (Critical "Error" e)
                          (with_oscilloscope (Some (osc s')) (win w));
                 wsent := sent s' |})
  end.
Proof.
  intros Ho Hc; unfold MainWindow.get_waveform, wbind, get_oscilloscope, try_except, wlift,
    py_int, MainWindow.run_osc; rewrite Ho, Hc; cbn [win]; rewrite Ho.
  destruct (get_waveform tr pf channel _) as [[tv|e] s']; reflexivity.
Qed.

(** Extra: [MainWindow.get_waveform] on an opened oscilloscope, with a
    channel text that [int()] accepts, keeps [self.oscilloscope] and either
    stores the waveform read in [self.time] and [self.voltage] (two
    sequences of the same length) and plots exactly it, once, in the
    current [waveform_color], with no message box; or shows one "Error"
    box and leaves [self.time], [self.voltage] and the plots as they were. *)
Theorem get_waveform_slot tr pf f w o r channel res w' :
  oscilloscope (win w) = Some o -> inst o = Some r ->
  py_int_of_string (channel_text f) = Some channel ->
  MainWindow.get_waveform tr pf f w = (res, w') ->
  res = Ok tt /\ oscilloscope (win w') = Some o /\
  ((exists t u, time (win w') = Some t /\ voltage (win w') = Some u /\
      List.length t = List.length u /\
      plots (win w') = (plots (win w) ++ [(t, u, waveform_color (win w))])%list /\
      dialogs (win w') = dialogs (win w)) \/
   (exists e, time (win w') = time (win w) /\ voltage (win w') = voltage (win w) /\
      plots (win w') = plots (win w) /\
      dialogs (win w') = (dialogs (win w) ++ [Critical "Error" e])%list)).
Proof.
  intros Ho Hi Hc H; rewrite (get_waveform_slot_eq tr pf f w o channel Ho Hc) in H.
  destruct (get_waveform tr pf channel {| osc := o; sent := wsent w |}) as [[[t u]|e] s'] eqn:E;
    injection H as <- <-; (split; [reflexivity|]);
    destruct (get_waveform_keeps tr pf channel _ _ _ E) as [Hos _]; cbn [osc] in Hos;
    cbn [win with_plot with_waveform with_dialog with_oscilloscope oscilloscope time voltage
         plots dialogs waveform_color fst snd]; rewrite Hos; (split; [reflexivity|]).
  - left; exists t, u; repeat split.
    apply get_waveform_ok_inv with (r := r) in E as (pre & p & bytes & vs & pa & _ & _ & Hcv & _);
      [|exact Hi].
    apply convert_ok_inv in Hcv as (_ & _ & -> & ->).
    rewrite !length_map, length_seq; reflexivity.
  - right; exists e; repeat split.
Qed.

Lemma get_waveform_slot_witness :
  let dev := Demo.scope Demo.idn Demo.preamble_ok Demo.samples "1" "1" in
  let w := snd (MainWindow.connect_oscilloscope dev Demo.py_float_repr MainWindow.default_form
                  {| win := MainWindow.initial; wsent := [] |}) in
  fst (MainWindow.get_waveform dev Demo.py_float_of_string MainWindow.default_form w) = Ok tt.
Proof.
  intros dev w.
  refine (proj1 (get_waveform_slot dev Demo.py_float_of_string MainWindow.default_form w _
    {| resource_of := resource_text MainWindow.default_form |} 1 _ _ _ _ _
    (surjective_pairing _))); vm_compute; reflexivity.
Defined.
